(** * Lineage queries of [zenml.core.metadata.metadata_wrapper]

    A shallow embedding of the query layer of [ZenMLMetadataStore]: the
    component status resolver, the cache-chain tracer and the outcome
    query engine, over an abstract ml-metadata backend.

    Conventions.
    - The backend ([self.store]) is a record of query functions; every
      method of the wrapper is a computation in a small monad that
      either returns a value, raises a Python exception or runs out of
      recursion fuel, and that logs the backend queries it issues, in
      order.
    - Exceptions carry the names Python gives them.  The source declares
      no exception classes of its own: where the specification speaks of
      [NotFound], [InvalidArgument] or [TraceError] the embedding shows
      which exception the interpreter raises at that point.
    - A Python [dict] is an association list in insertion order with
      unique keys; a parameter that defaults to [None] is an [option].
    - A name that the module never binds raises [NameError] where it is
      evaluated.  The module binds [Text], [List], [Dict], [pd],
      [metadata_store], [metadata_store_pb2] and [PipelineStatusTypes]
      (lines 27-33); it uses [ExecutionStates] at lines 424 and 448
      without binding it.
    - [fuel] bounds the recursive calls of the tracer in the embedding,
      whose recursive call the source never reaches. *)

From Stdlib Require Import ZArith String Ascii.
From stdpp Require Import base decidable option list strings.

Local Open Scope Z_scope.
Local Open Scope string_scope.
Local Open Scope list_scope.

(** ** Entities of the metadata graph *)

(** [properties] is a protobuf map field of ml-metadata: indexing it
    with an absent key yields the default [Value], whose [string_value]
    is the empty string, and raises nothing.  Only [string_value] is
    read by the wrapper. *)
Definition properties_t := list (string * string).

Fixpoint string_value (properties : properties_t) (key : string) : string :=
  match properties with
  | [] => ""
  | (k, v) :: rest => if String.eqb k key then v else string_value rest key
  end.

Module Context.
Record t := mk { id : Z; type : string; name : string;
                 properties : properties_t }.
End Context.

Module Execution.
Record t := mk { id : Z; properties : properties_t }.

(** [e.properties['component_id'].string_value] *)
Definition component_id (e : t) : string :=
  string_value (properties e) "component_id".

(** [e.properties['state'].string_value] *)
Definition state (e : t) : string := string_value (properties e) "state".
End Execution.

Module Artifact.
Record t := mk { id : Z; uri : string }.
End Artifact.

Module Event.
Record t := mk { execution_id : Z; artifact_id : Z; type : Z }.
End Event.

(** The [context_name] argument of [get_context_by_type_and_name] is a
    name everywhere but in [get_outcomes], which passes a context id. *)
Inductive pyarg := PyStr (s : string) | PyInt (z : Z).

(** ** The backend *)

Module MetadataStore.
Record t := mk {
  get_context_by_type_and_name : string -> pyarg -> option Context.t;
  get_contexts : list Context.t;
  get_executions : list Execution.t;
  get_executions_by_context : Z -> list Execution.t;
  get_executions_by_id : list Z -> list Execution.t;
  get_events_by_execution_ids : list Z -> list Event.t;
  get_events_by_artifact_ids : list Z -> list Event.t;
  get_artifacts_by_id : list Z -> list Artifact.t;
  get_contexts_by_execution : Z -> list Context.t
}.
End MetadataStore.

Inductive query :=
| Q_get_context_by_type_and_name (type_name : string) (context_name : pyarg)
| Q_get_contexts
| Q_get_executions
| Q_get_executions_by_context (context_id : Z)
| Q_get_executions_by_id (ids : list Z)
| Q_get_events_by_execution_ids (ids : list Z)
| Q_get_events_by_artifact_ids (ids : list Z)
| Q_get_artifacts_by_id (ids : list Z)
| Q_get_contexts_by_execution (execution_id : Z).

(** ** Exceptions, outcomes and the monad of wrapper methods *)

Inductive exn :=
| AttributeError      (* attribute access on [None] *)
| IndexError          (* [l[i]] out of range *)
| UnboundLocalError   (* local variable read before assignment *)
| AssertionError      (* a failed [assert] *)
| NameError           (* a name that is bound nowhere *)
| Exception (msg : string).

Inductive outcome (A : Type) :=
| Return (a : A)
| Raise (e : exn)
| OutOfFuel.
Arguments Return {A} a.
Arguments Raise {A} e.
Arguments OutOfFuel {A}.

Definition M (A : Type) : Type := outcome A * list query.

Definition ret {A} (a : A) : M A := (Return a, []).
Definition raise {A} (e : exn) : M A := (Raise e, []).
Definition out_of_fuel {A} : M A := (OutOfFuel, []).

Definition bind {A B} (m : M A) (k : A -> M B) : M B :=
  match m with
  | (Return a, log) => let (r, log') := k a in (r, log ++ log')
  | (Raise e, log) => (Raise e, log)
  | (OutOfFuel, log) => (OutOfFuel, log)
  end.

Notation "x <- m ;; k" := (bind m (fun x => k))
  (at level 100, m at next level, right associativity).

Definition result {A} (m : M A) : outcome A := fst m.
Definition queries {A} (m : M A) : list query := snd m.

(** [for x in l: ...] where the body may raise. *)
Fixpoint for_each {A B} (f : A -> M B) (l : list A) : M (list B) :=
  match l with
  | [] => ret []
  | x :: rest => y <- f x ;; ys <- for_each f rest ;; ret (y :: ys)
  end.

(** ** Python values *)

(** [d[k] = v] on an insertion-ordered dictionary. *)
Fixpoint dict_set {K V} `{EqDecision K} (k : K) (v : V) (d : list (K * V))
  : list (K * V) :=
  match d with
  | [] => [(k, v)]
  | (k', v') :: rest =>
      if decide (k' = k) then (k', v) :: rest
      else (k', v') :: dict_set k v rest
  end.

Fixpoint dict_get {K V} `{EqDecision K} (k : K) (d : list (K * V)) : option V :=
  match d with
  | [] => None
  | (k', v') :: rest => if decide (k' = k) then Some v' else dict_get k rest
  end.

(** [{key: value for ... in items}]: one [d[key] = value] per item. *)
Definition dict_step {K V} `{EqDecision K} (d : list (K * V)) (kv : K * V)
  : list (K * V) := dict_set kv.1 kv.2 d.

Definition dict_of {K V} `{EqDecision K} (items : list (K * V)) : list (K * V) :=
  foldl dict_step [] items.

Definition dict_keys {K V} (d : list (K * V)) : list K := d.*1.

(** [bool(x)] of an optional list argument. *)
Definition truthy {A} (x : option (list A)) : bool :=
  match x with
  | Some (_ :: _) => true
  | _ => false
  end.

(** [s.split(sep)] for a one-character separator. *)
Fixpoint split (sep : ascii) (s : string) : list string :=
  match s with
  | EmptyString => [""]
  | String c rest =>
      if Ascii.eqb c sep then "" :: split sep rest
      else match split sep rest with
           | [] => [String c ""]
           | seg :: segs => String c seg :: segs
           end
  end.

(** [l[i]] *)
Definition index {A} (l : list A) (i : nat) : M A :=
  match l !! i with
  | Some x => ret x
  | None => raise IndexError
  end.

(** Modelled from the spec: the enumeration [PipelineStatusTypes] of
    [zenml.utils.enums], which the module imports and src/ does not
    hold.  The specification gives its members as [Running | Succeeded];
    [name] is the member's name as a string. *)
Module PipelineStatusTypes.
Inductive t := Running | Succeeded.
Definition name (x : t) : string :=
  match x with Running => "Running" | Succeeded => "Succeeded" end.
End PipelineStatusTypes.

(** ** The wrapper: [class ZenMLMetadataStore] *)

Section ZenMLMetadataStore.

Variable store : MetadataStore.t.

(** Calls on [self.store]: the answer of the backend, logged. *)
Definition ask {A} (q : query) (answer : A) : M A := (Return answer, [q]).

Definition store_get_context_by_type_and_name type_name context_name :=
  ask (Q_get_context_by_type_and_name type_name context_name)
      (MetadataStore.get_context_by_type_and_name store type_name context_name).
Definition store_get_contexts :=
  ask Q_get_contexts (MetadataStore.get_contexts store).
Definition store_get_executions :=
  ask Q_get_executions (MetadataStore.get_executions store).
Definition store_get_executions_by_context context_id :=
  ask (Q_get_executions_by_context context_id)
      (MetadataStore.get_executions_by_context store context_id).
Definition store_get_executions_by_id ids :=
  ask (Q_get_executions_by_id ids) (MetadataStore.get_executions_by_id store ids).
Definition store_get_events_by_execution_ids ids :=
  ask (Q_get_events_by_execution_ids ids)
      (MetadataStore.get_events_by_execution_ids store ids).
Definition store_get_events_by_artifact_ids ids :=
  ask (Q_get_events_by_artifact_ids ids)
      (MetadataStore.get_events_by_artifact_ids store ids).
Definition store_get_artifacts_by_id ids :=
  ask (Q_get_artifacts_by_id ids) (MetadataStore.get_artifacts_by_id store ids).
Definition store_get_contexts_by_execution execution_id :=
  ask (Q_get_contexts_by_execution execution_id)
      (MetadataStore.get_contexts_by_execution store execution_id).

(** [x.attr] where [x] may be [None]. *)
Definition attr {A B} (f : A -> B) (x : option A) : M B :=
  match x with
  | Some a => ret (f a)
  | None => raise AttributeError
  end.

(** Reading a local variable that is bound on some paths only. *)
Definition local {A} (x : option A) : M A :=
  match x with
  | Some a => ret a
  | None => raise UnboundLocalError
  end.

Definition py_assert (b : bool) : M unit :=
  if b then ret tt else raise AssertionError.

(** [ExecutionStates.cached.name].  No statement of the module binds the
    name [ExecutionStates] (lines 27-33 import [Text], [List], [Dict],
    [pd], [metadata_store], [metadata_store_pb2] and
    [PipelineStatusTypes] only) and it is no builtin: evaluating the
    expression raises [NameError]. *)
Definition ExecutionStates_cached_name : M string := raise NameError.

(** *** Component status resolver *)

Definition get_pipeline_context (pipeline_name : string) : M (option Context.t) :=
  store_get_context_by_type_and_name "pipeline" (PyStr pipeline_name).

Definition get_pipeline_executions (pipeline_name : string) : M (list Execution.t) :=
  c <- get_pipeline_context pipeline_name ;;
  context_id <- attr Context.id c ;;
  store_get_executions_by_context context_id.

Definition get_components_status (pipeline_name : string)
  : M (list (string * string)) :=
  pipeline_executions <- get_pipeline_executions pipeline_name ;;
  ret (dict_of (map (fun e => (Execution.component_id e, Execution.state e))
                    pipeline_executions)).

(** [for status in components_status: if status != 'complete' or
    status != 'cached': return Running.name] followed by
    [return Succeeded.name].  Iterating a dict yields its keys. *)
Fixpoint get_pipeline_status_loop (keys : list string) : string :=
  match keys with
  | [] => PipelineStatusTypes.name PipelineStatusTypes.Succeeded
  | status :: rest =>
      if negb (String.eqb status "complete") || negb (String.eqb status "cached")
      then PipelineStatusTypes.name PipelineStatusTypes.Running
      else get_pipeline_status_loop rest
  end.

Definition get_pipeline_status (pipeline_name : string) : M string :=
  components_status <- get_components_status pipeline_name ;;
  ret (get_pipeline_status_loop (dict_keys components_status)).

(** *** Outcome query engine *)

Record condition := mk_condition {
  component : string; property_name : string; value : string }.

Definition list_registered_components : M (list string) :=
  executions <- store_get_executions ;;
  ret (remove_dups (map Execution.component_id executions)).

Definition filter_executions_by_component (component : string)
  : M (list Execution.t) :=
  registered <- list_registered_components ;;
  _ <- py_assert (bool_decide (component ∈ registered)) ;;
  executions <- store_get_executions ;;
  ret (filter (fun e => Execution.component_id e = component) executions).

Definition filter_executions_by_condition (cond : condition)
  : M (list Execution.t) :=
  executions <- filter_executions_by_component (component cond) ;;
  ret (filter (fun e => string_value (Execution.properties e)
                                     (property_name cond) = value cond)
              executions).

Definition map_execution_to_context (executions : list Execution.t)
  : M (list Context.t) :=
  for_each (fun e => contexts <- store_get_contexts_by_execution (Execution.id e) ;;
                     index contexts 0)
           executions.

Definition list_contexts_by_condition (cond : condition) : M (list Context.t) :=
  executions <- filter_executions_by_condition cond ;;
  map_execution_to_context executions.

Definition output_artifact_ids (events : list Event.t) : list Z :=
  map Event.artifact_id (filter (fun e => Event.type e = 4) events).

Definition extract_uris (result : list (string * list Artifact.t))
  : list (string * list string) :=
  map (fun kv => (kv.1, map Artifact.uri kv.2)) result.

Definition get_outcomes_in_context (context : pyarg)
    (output_components : option (list string))
  : M (list (string * list Artifact.t)) :=
  output_ids <- (if truthy output_components
                 then ret (default [] output_components)
                 else list_registered_components) ;;
  c <- store_get_context_by_type_and_name "run" context ;;
  context_id <- attr Context.id c ;;
  execs_in_context <- store_get_executions_by_context context_id ;;
  let execs_components :=
    dict_of (map (fun e => (Execution.component_id e, Execution.id e))
                 (filter (fun e => Execution.component_id e ∈ output_ids)
                         execs_in_context)) in
  items <- for_each
             (fun ce : string * Z =>
                events <- store_get_events_by_execution_ids [ce.2] ;;
                artifacts <- store_get_artifacts_by_id (output_artifact_ids events) ;;
                ret (ce.1, artifacts))
             execs_components ;;
  ret (dict_of items).

(** Lines 354-365 of [get_outcomes]: the initial [target_context_ids]. *)
Definition get_outcomes_target_context_ids
    (contexts context_names : option (list string)) : M (list Z) :=
  if truthy contexts then
    for_each (fun c => x <- store_get_context_by_type_and_name "run" (PyStr c) ;;
                       attr Context.id x)
             (default [] contexts)
  else if truthy context_names then
    target_contexts <- store_get_contexts ;;
    ret (map Context.id
             (filter (fun c => Context.name c ∈ default [] context_names)
                     target_contexts))
  else
    target_contexts <- store_get_contexts ;;
    ret (map Context.id target_contexts).

(** Lines 368-372: [for cond in conditions: ...], narrowing
    [target_context_ids]. *)
Fixpoint get_outcomes_conditions_loop (conditions : list condition)
    (target_context_ids : list Z) : M (list Z) :=
  match conditions with
  | [] => ret target_context_ids
  | cond :: rest =>
      context_w_cond <- list_contexts_by_condition cond ;;
      let context_w_cond_ids := map Context.id context_w_cond in
      get_outcomes_conditions_loop rest
        (filter (fun c => c ∈ context_w_cond_ids) target_context_ids)
  end.

Definition get_outcomes
    (contexts context_names output_components : option (list string))
    (conditions : option (list condition))
  : M (list (Z * list (string * list string))) :=
  if truthy contexts && truthy context_names then
    raise (Exception "Cant define context id/names at the same time")
  else
    target_context_ids <- get_outcomes_target_context_ids contexts context_names ;;
    target_context_ids <-
      (if truthy conditions
       then get_outcomes_conditions_loop (default [] conditions) target_context_ids
       else ret target_context_ids) ;;
    result <- for_each
                (fun c_id => v <- get_outcomes_in_context (PyInt c_id) output_components ;;
                             ret (c_id, v))
                target_context_ids ;;
    ret (map (fun kv => (kv.1, extract_uris kv.2)) (dict_of result)).

(** *** Cache-chain tracer *)

Fixpoint get_execution_by_component_type_loop (component_id : string)
    (execs : list Execution.t) : M (option Execution.t) :=
  match execs with
  | [] => ret None
  | e :: rest =>
      let full := Execution.component_id e in
      instance_name <- index (split "." full) 1 ;;
      if String.eqb instance_name component_id then ret (Some e)
      else get_execution_by_component_type_loop component_id rest
  end.

Definition get_execution_by_component_type (context component_id : string)
  : M (option Execution.t) :=
  c <- store_get_context_by_type_and_name "run" (PyStr context) ;;
  context_id <- attr Context.id c ;;
  execs <- store_get_executions_by_context context_id ;;
  get_execution_by_component_type_loop component_id execs.

(** The first event of type 4, where the [for] loop over [new_events]
    returns. *)
Definition first_output_event (events : list Event.t) : option Event.t :=
  head (filter (fun e => Event.type e = 4) events).

(** The recursion of the source has no bound of its own; [fuel] counts
    the calls (hops) the embedding is allowed to make.  The operands of
    [==] are evaluated from left to right: the state of the execution
    first, [ExecutionStates.cached.name] second. *)
Fixpoint find_original_context_and_artifacts_from_exec (fuel : nat)
    (execution : option Execution.t) : M (option (string * list Artifact.t)) :=
  match fuel with
  | O => out_of_fuel
  | S fuel' =>
      execution_id <- attr Execution.id execution ;;
      events <- store_get_events_by_execution_ids [execution_id] ;;
      let artifacts_ids := output_artifact_ids events in
      let artifact_id := last artifacts_ids in
      execution_state <- attr Execution.state execution ;;
      cached_name <- ExecutionStates_cached_name ;;
      if String.eqb execution_state cached_name
      then
        artifact_id <- local artifact_id ;;
        new_events <- store_get_events_by_artifact_ids [artifact_id] ;;
        match first_output_event new_events with
        | Some e =>
            executions <- store_get_executions_by_id [Event.execution_id e] ;;
            origin <- index executions 0 ;;
            find_original_context_and_artifacts_from_exec fuel' (Some origin)
        | None => ret None
        end
      else
        contexts <- store_get_contexts_by_execution execution_id ;;
        c <- index contexts 0 ;;
        artifacts <- store_get_artifacts_by_id artifacts_ids ;;
        ret (Some (Context.name c, artifacts))
  end.

Definition find_original_context_and_artifacts_from_context (fuel : nat)
    (context component_type : string) : M (option (string * list Artifact.t)) :=
  execution <- get_execution_by_component_type context component_type ;;
  find_original_context_and_artifacts_from_exec fuel execution.

End ZenMLMetadataStore.

(** ** A relational backend

    The worked scenarios below run the wrapper against a backend that
    answers every query from five tables, in table order. *)

Record tables := mk_tables {
  t_contexts : list Context.t;
  t_executions : list Execution.t;
  t_artifacts : list Artifact.t;
  t_events : list Event.t;
  t_associations : list (Z * Z)   (* context id, execution id *)
}.

Definition table_store (t : tables) : MetadataStore.t := {|
  MetadataStore.get_context_by_type_and_name type_name context_name :=
    match context_name with
    | PyStr s =>
        head (filter (fun c => Context.type c = type_name /\ Context.name c = s)
                     (t_contexts t))
    | PyInt _ => None
    end;
  MetadataStore.get_contexts := t_contexts t;
  MetadataStore.get_executions := t_executions t;
  MetadataStore.get_executions_by_context context_id :=
    filter (fun e => (context_id, Execution.id e) ∈ t_associations t)
           (t_executions t);
  MetadataStore.get_executions_by_id ids :=
    filter (fun e => Execution.id e ∈ ids) (t_executions t);
  MetadataStore.get_events_by_execution_ids ids :=
    filter (fun e => Event.execution_id e ∈ ids) (t_events t);
  MetadataStore.get_events_by_artifact_ids ids :=
    filter (fun e => Event.artifact_id e ∈ ids) (t_events t);
  MetadataStore.get_artifacts_by_id ids :=
    filter (fun a => Artifact.id a ∈ ids) (t_artifacts t);
  MetadataStore.get_contexts_by_execution execution_id :=
    filter (fun c => (Context.id c, execution_id) ∈ t_associations t)
           (t_contexts t)
|}.

Definition execution (id : Z) (component_id state : string) : Execution.t :=
  Execution.mk id [("component_id", component_id); ("state", state)].

Definition output_event (execution_id artifact_id : Z) : Event.t :=
  Event.mk execution_id artifact_id 4.

(** *** A pipeline whose only component is complete *)
Definition complete_pipeline : tables := {|
  t_contexts := [Context.mk 1 "pipeline" "P" []];
  t_executions := [execution 10 "pkg.trainer" "complete"];
  t_artifacts := [Artifact.mk 100 "/artifacts/model"];
  t_events := [output_event 10 100];
  t_associations := [(1, 10)]
|}.

(** *** A pipeline in which a component id occurs twice *)
Definition duplicate_pipeline : tables := {|
  t_contexts := [Context.mk 1 "pipeline" "P" []];
  t_executions := [execution 10 "pkg.loader" "running";
                   execution 11 "pkg.trainer" "complete";
                   execution 12 "pkg.loader" "cached"];
  t_artifacts := [];
  t_events := [];
  t_associations := [(1, 10); (1, 11); (1, 12)]
|}.

(** *** Two cached executions that reference each other

    The last output event of execution 1 references artifact 101,
    whose first output event belongs to execution 2; the last output
    event of execution 2 references artifact 102, whose first output
    event belongs to execution 1. *)
Definition two_cycle : tables := {|
  t_contexts := [Context.mk 7 "run" "run-7" []];
  t_executions := [execution 1 "pkg.trainer" "cached";
                   execution 2 "pkg.evaluator" "cached"];
  t_artifacts := [Artifact.mk 101 "/artifacts/a101";
                  Artifact.mk 102 "/artifacts/a102"];
  t_events := [output_event 1 102; output_event 2 101;
               output_event 1 101; output_event 2 102];
  t_associations := [(7, 1); (7, 2)]
|}.

(** *** A cached execution that recorded no output event *)
Definition cached_without_output : tables := {|
  t_contexts := [Context.mk 7 "run" "run-7" []];
  t_executions := [execution 1 "pkg.trainer" "cached"];
  t_artifacts := [Artifact.mk 101 "/artifacts/a101"];
  t_events := [Event.mk 1 101 3];
  t_associations := [(7, 1)]
|}.

(** *** The run-41 / run-42 scenario

    Run "run-42" holds [e1] (pkg.loader, complete) and [e2]
    (pkg.trainer, cached); the output event of [e2] references artifact
    [a2], which is also an output of [e0] (pkg.trainer, complete) of
    run "run-41", listed after the output event by which [e0] produced
    artifact [a1]. *)
Module Scenario.
Definition run_41 := Context.mk 41 "run" "run-41" [].
Definition run_42 := Context.mk 42 "run" "run-42" [].
Definition e0 := execution 0 "pkg.trainer" "complete".
Definition e1 := execution 1 "pkg.loader" "complete".
Definition e2 := execution 2 "pkg.trainer" "cached".
Definition a1 := Artifact.mk 1 "/artifacts/a1".
Definition a2 := Artifact.mk 2 "/artifacts/a2".
Definition a3 := Artifact.mk 3 "/artifacts/a3".

Definition store : MetadataStore.t := table_store {|
  t_contexts := [run_41; run_42];
  t_executions := [e0; e1; e2];
  t_artifacts := [a1; a2; a3];
  t_events := [output_event 0 1; output_event 0 2; output_event 1 3;
               output_event 2 2];
  t_associations := [(41, 0); (42, 1); (42, 2)]
|}.
End Scenario.

(** *** A run context named like the pipeline, and no pipeline context *)
Definition run_context_only : tables := {|
  t_contexts := [Context.mk 7 "run" "P" []];
  t_executions := [execution 10 "pkg.loader" "complete";
                   execution 11 "pkg.trainer" "complete"];
  t_artifacts := [];
  t_events := [];
  t_associations := [(7, 10); (7, 11)]
|}.

(** *** One pipeline, two runs

    Every execution belongs to the pipeline context first and to its run
    context second, as the orchestrator registers them. *)
Definition two_runs : tables := {|
  t_contexts := [Context.mk 1 "pipeline" "P" [];
                 Context.mk 41 "run" "run-41" [];
                 Context.mk 42 "run" "run-42" []];
  t_executions := [execution 10 "pkg.trainer" "complete";
                   execution 20 "pkg.trainer" "cached"];
  t_artifacts := [Artifact.mk 101 "/artifacts/model"];
  t_events := [output_event 10 101; output_event 20 101];
  t_associations := [(1, 10); (41, 10); (1, 20); (42, 20)]
|}.


(** ** Vocabulary of the claims *)

Section Vocabulary.

Variable store : MetadataStore.t.

(** The output artifact ids the tracer collects for [e]. *)
Definition collected_artifact_ids (e : Execution.t) : list Z :=
  output_artifact_ids
    (MetadataStore.get_events_by_execution_ids store [Execution.id e]).

(** [full.split('.')[1]], when there is a second segment. *)
Definition instance_name (e : Execution.t) : option string :=
  split "." (Execution.component_id e) !! 1%nat.

(** An execution that the lookup by component type passes over: its
    component id has a second segment, and it differs from
    [component_type]. *)
Definition passed_over (component_type : string) (e : Execution.t) : Prop :=
  exists s, instance_name e = Some s /\ s <> component_type.

(** [matches cond e]: [e] is an execution of the component named by
    [cond] whose named property has the given value. *)
Definition matches (cond : condition) (e : Execution.t) : Prop :=
  Execution.component_id e = component cond
  /\ string_value (Execution.properties e) (property_name cond) = value cond.

(** [satisfies cond c_id]: [c_id] is the id of the first context that the
    backend lists for some execution matching [cond]. *)
Definition satisfies (cond : condition) (c_id : Z) : Prop :=
  exists e ctx,
    e ∈ MetadataStore.get_executions store
    /\ matches cond e
    /\ head (MetadataStore.get_contexts_by_execution store (Execution.id e))
        = Some ctx
    /\ Context.id ctx = c_id.

Definition registered (component : string) : Prop :=
  component ∈ map Execution.component_id (MetadataStore.get_executions store).

(** [cond] is evaluated without an exception: its component is
    registered and every matching execution has a context. *)
Definition evaluates (cond : condition) : Prop :=
  registered (component cond)
  /\ forall e, e ∈ MetadataStore.get_executions store -> matches cond e ->
       MetadataStore.get_contexts_by_execution store (Execution.id e) <> [].


End Vocabulary.

(** ** The other read-only methods of the wrapper *)

(** [needle in haystack] on strings. *)
Fixpoint contains (needle haystack : string) : bool :=
  String.prefix needle haystack
  || match haystack with
     | EmptyString => false
     | String _ rest => contains needle rest
     end.

Section OtherMethods.

Variable store : MetadataStore.t.

(** [for e in pipeline_executions: if component_name in
    e.properties['component_id'].string_value: return e] *)
Fixpoint get_component_execution_loop (component_name : string)
    (pipeline_executions : list Execution.t) : option Execution.t :=
  match pipeline_executions with
  | [] => None
  | e :: rest =>
      if contains component_name (Execution.component_id e) then Some e
      else get_component_execution_loop component_name rest
  end.

Definition get_component_execution (pipeline_name component_name : string)
  : M (option Execution.t) :=
  pipeline_executions <- get_pipeline_executions store pipeline_name ;;
  ret (get_component_execution_loop component_name pipeline_executions).

(** [for e in events: if e.type == 4: artifact_ids.append(e.artifact_id);
    break] *)
Fixpoint get_artifacts_by_execution_loop (events : list Event.t) : list Z :=
  match events with
  | [] => []
  | e :: rest =>
      if bool_decide (Event.type e = 4) then [Event.artifact_id e]
      else get_artifacts_by_execution_loop rest
  end.

Definition get_artifacts_by_execution (execution_id : Z) : M (list Artifact.t) :=
  events <- store_get_events_by_execution_ids store [execution_id] ;;
  let artifact_ids := get_artifacts_by_execution_loop events in
  match artifact_ids with
  | [] => raise AssertionError
  | _ :: _ => store_get_artifacts_by_id store artifact_ids
  end.

Definition get_artifacts_by_component (pipeline_name component_name : string)
  : M (list Artifact.t) :=
  e <- get_component_execution pipeline_name component_name ;;
  execution_id <- attr Execution.id e ;;
  get_artifacts_by_execution execution_id.

(** [for c in all_cs: if 'run_id' in c.properties: return c] *)
Fixpoint get_run_context_by_comp_execution_id_loop (all_cs : list Context.t)
  : option Context.t :=
  match all_cs with
  | [] => None
  | c :: rest =>
      if bool_decide ("run_id" ∈ (Context.properties c).*1) then Some c
      else get_run_context_by_comp_execution_id_loop rest
  end.

Definition get_run_context_by_comp_execution_id (comp_exec_id : Z)
  : M (option Context.t) :=
  all_cs <- store_get_contexts_by_execution store comp_exec_id ;;
  ret (get_run_context_by_comp_execution_id_loop all_cs).

Definition get_executions_by_context (context : string) : M (list Execution.t) :=
  c <- store_get_context_by_type_and_name store "run" (PyStr context) ;;
  context_id <- attr Context.id c ;;
  store_get_executions_by_context store context_id.

(** [for c in contexts: if c.properties['run_id'].string_value == run_id:
    return c.id] *)
Fixpoint get_context_by_run_id_loop (run_id : string) (contexts : list Context.t)
  : option Z :=
  match contexts with
  | [] => None
  | c :: rest =>
      if String.eqb (string_value (Context.properties c) "run_id") run_id
      then Some (Context.id c)
      else get_context_by_run_id_loop run_id rest
  end.

Definition get_context_by_run_id (run_id : string) : M (option Z) :=
  contexts <- store_get_contexts store ;;
  ret (get_context_by_run_id_loop run_id contexts).

Fixpoint is_component_cached_loop (component_id : string)
    (execs : list Execution.t) : M bool :=
  match execs with
  | [] => ret false
  | e :: rest =>
      let full := Execution.component_id e in
      instance_name <- index (split "." full) 1 ;;
      if String.eqb instance_name component_id then
        cached_name <- ExecutionStates_cached_name ;;
        if String.eqb (Execution.state e) cached_name
        then ret true else ret false
      else is_component_cached_loop component_id rest
  end.

Definition is_component_cached (context component_id : string) : M bool :=
  c <- store_get_context_by_type_and_name store "run" (PyStr context) ;;
  context_id <- attr Context.id c ;;
  execs <- store_get_executions_by_context store context_id ;;
  is_component_cached_loop component_id execs.

(** *** Vocabulary *)

(** [needle] occurs in [haystack]. *)
Definition occurs_in (needle haystack : string) : Prop :=
  exists pre post, haystack = (pre ++ needle ++ post)%string.

Definition has_no_dot (s : string) : Prop := ~ occurs_in "." s.

(** The backend lists at least one context for [e]. *)
Definition has_context (e : Execution.t) : Prop :=
  MetadataStore.get_contexts_by_execution store (Execution.id e) <> [].

(** [name] is the name of a run context. *)
Definition resolves (name : string) : Prop :=
  MetadataStore.get_context_by_type_and_name store "run" (PyStr name) <> None.

(** Lines 354-372 of [get_outcomes]: the target context ids that are
    left when the loop over the results starts. *)
Definition get_outcomes_surviving_context_ids
    (contexts context_names : option (list string))
    (conditions : option (list condition)) : M (list Z) :=
  target_context_ids <-
    get_outcomes_target_context_ids store contexts context_names ;;
  if truthy conditions
  then get_outcomes_conditions_loop store (default [] conditions)
         target_context_ids
  else ret target_context_ids.

End OtherMethods.

(** *** A pipeline with two trainers and an event-less pusher *)
Definition trainers_pipeline : tables := {|
  t_contexts := [Context.mk 1 "pipeline" "P" [];
                 Context.mk 7 "run" "run-7" [("run_id", "r7")]];
  t_executions := [execution 10 "pkg.trainer_2" "complete";
                   execution 11 "pkg.trainer" "cached";
                   execution 12 "pkg.pusher" "running";
                   execution 13 "standalone" "complete"];
  t_artifacts := [Artifact.mk 100 "/artifacts/examples";
                  Artifact.mk 101 "/artifacts/model_2";
                  Artifact.mk 102 "/artifacts/metrics_2";
                  Artifact.mk 103 "/artifacts/model"];
  t_events := [Event.mk 10 100 3; output_event 10 101; output_event 10 102;
               output_event 11 103];
  t_associations := [(1, 10); (1, 11); (1, 12);
                     (7, 10); (7, 11); (7, 12); (7, 13)]
|}.


(** * Properties *)
Section DictFacts.
Context {K V : Type} `{EqDecision K}.
Implicit Types (d : list (K * V)) (k : K) (v : V).

Lemma dict_keys_set k v d :
  dict_keys (dict_set k v d) =
  if decide (k ∈ dict_keys d) then dict_keys d else dict_keys d ++ [k].
Proof.
  unfold dict_keys. induction d as [|[k' v'] d IH]; csimpl.
  - destruct (decide (k ∈ @nil K)) as [Hin|Hin]; [by apply elem_of_nil in Hin | done].
  - destruct (decide (k' = k)) as [->|Hne]; csimpl.
    + rewrite decide_True by left. done.
    + rewrite IH. destruct (decide (k ∈ d.*1)) as [Hin|Hin].
      * rewrite decide_True by (by right). done.
      * rewrite decide_False; [done|].
        intros [?|?]%elem_of_cons; congruence.
Qed.

Lemma dict_get_set_eq k v d : dict_get k (dict_set k v d) = Some v.
Proof.
  induction d as [|[k' v'] d IH]; csimpl.
  - by rewrite decide_True.
  - destruct (decide (k' = k)) as [->|Hne]; csimpl.
    + by rewrite decide_True.
    + by rewrite decide_False.
Qed.

Lemma dict_get_set_ne k k' v d :
  k ≠ k' -> dict_get k' (dict_set k v d) = dict_get k' d.
Proof.
  intros Hne. induction d as [|[k0 v0] d IH]; csimpl.
  - by rewrite decide_False.
  - destruct (decide (k0 = k)) as [->|Hne0]; csimpl.
    + by rewrite !decide_False.
    + by rewrite IH.
Qed.

Lemma dict_keys_foldl items d k :
  k ∈ dict_keys (foldl dict_step d items) <-> k ∈ dict_keys d \/ k ∈ items.*1.
Proof.
  revert d. induction items as [|[k0 v0] items IH]; intros d; csimpl.
  - rewrite elem_of_nil. tauto.
  - rewrite IH. unfold dict_step. csimpl. rewrite dict_keys_set.
    rewrite elem_of_cons. case_decide as Hin.
    + split; [tauto|]. intros [?|[->|?]]; tauto.
    + rewrite elem_of_app, list_elem_of_singleton. tauto.
Qed.

Lemma dict_keys_foldl_NoDup items d :
  NoDup (dict_keys d) -> NoDup (dict_keys (foldl dict_step d items)).
Proof.
  revert d. induction items as [|[k0 v0] items IH]; intros d Hd; csimpl; [done|].
  apply IH. unfold dict_step. csimpl. rewrite dict_keys_set.
  case_decide as Hin; [done|].
  apply NoDup_app. split_and!; [done| |apply NoDup_singleton].
  intros x Hx ->%list_elem_of_singleton. done.
Qed.

Lemma dict_length_foldl items d :
  NoDup (dict_keys d ++ items.*1) ->
  length (foldl dict_step d items) = (length d + length items)%nat.
Proof.
  revert d. induction items as [|[k0 v0] items IH]; intros d Hd; csimpl.
  - lia.
  - assert (Hk : dict_keys (dict_step d (k0, v0)) = dict_keys d ++ [k0]).
    { unfold dict_step. csimpl. rewrite dict_keys_set, decide_False; [done|].
      apply NoDup_app in Hd as (_ & Hd & _). intros Hin.
      apply (Hd k0 Hin). left. }
    rewrite IH.
    + assert (Hl : length (dict_keys (dict_step d (k0, v0))) = S (length d)).
      { rewrite Hk, length_app. unfold dict_keys. rewrite length_fmap. csimpl. lia. }
      unfold dict_keys in Hl. rewrite length_fmap in Hl. lia.
    + rewrite Hk, <- app_assoc. done.
Qed.

Lemma dict_get_foldl_notin items d k :
  k ∉ items.*1 -> dict_get k (foldl dict_step d items) = dict_get k d.
Proof.
  revert d. induction items as [|[k0 v0] items IH]; intros d Hk; csimpl; [done|].
  csimpl in Hk. apply not_elem_of_cons in Hk as [Hne Hk].
  rewrite IH by done. unfold dict_step. csimpl. by apply dict_get_set_ne.
Qed.

Lemma dict_get_foldl_last l1 k v l2 d :
  k ∉ l2.*1 -> dict_get k (foldl dict_step d (l1 ++ (k, v) :: l2)) = Some v.
Proof.
  intros Hk. rewrite foldl_app. csimpl.
  rewrite dict_get_foldl_notin by done. apply dict_get_set_eq.
Qed.

End DictFacts.

Section MonadFacts.
Context {A B : Type}.

Lemma bind_ask (q : query) (a : A) (k : A -> M B) :
  bind (ask q a) k = (result (k a), q :: queries (k a)).
Proof. unfold ask, bind, result, queries. by destruct (k a). Qed.

Lemma bind_ret (a : A) (k : A -> M B) : bind (ret a) k = k a.
Proof. unfold ret, bind. by destruct (k a). Qed.

Lemma bind_raise (e : exn) (k : A -> M B) : bind (raise e) k = raise e.
Proof. done. Qed.

Lemma result_bind_Return (m : M A) (k : A -> M B) a :
  result m = Return a -> result (bind m k) = result (k a).
Proof.
  destruct m as [r log]. unfold result. simpl. intros ->.
  by destruct (k a).
Qed.

Lemma result_bind_Raise (m : M A) (k : A -> M B) e :
  result m = Raise e -> result (bind m k) = Raise e.
Proof. destruct m as [r log]. unfold result. simpl. by intros ->. Qed.

Lemma result_bind_inv (m : M A) (k : A -> M B) b :
  result (bind m k) = Return b ->
  exists a, result m = Return a /\ result (k a) = Return b.
Proof.
  destruct m as [[a| |] log]; unfold result; simpl; [|done..].
  destruct (k a) as [r log'] eqn:Hk. simpl. intros ->. exists a.
  by rewrite Hk.
Qed.

End MonadFacts.

Lemma bind_assoc {A B C} (m : M A) (k : A -> M B) (h : B -> M C) :
  bind (bind m k) h = bind m (fun a => bind (k a) h).
Proof.
  destruct m as [[a| |] log]; simpl; [|done..].
  destruct (k a) as [[b| |] log']; simpl; [|done..].
  destruct (h b) as [r log'']. by rewrite app_assoc.
Qed.

Lemma bind_ext {A B} (m : M A) (k k' : A -> M B) :
  (forall a, k a = k' a) -> bind m k = bind m k'.
Proof. intros Hk. destruct m as [[a| |] log]; simpl; [|done..]. by rewrite Hk. Qed.

(** A loop whose body returns at every element returns the list of what
    the bodies returned. *)
Lemma for_each_returns {A B} (f : A -> M B) (g : A -> B) l :
  (forall x, x ∈ l -> result (f x) = Return (g x)) ->
  result (for_each f l) = Return (map g l).
Proof.
  induction l as [|x l IH]; intros Hf; [done|].
  cbn [for_each map].
  rewrite (result_bind_Return _ _ (g x)) by (apply Hf; left).
  rewrite (result_bind_Return _ _ (map g l)) by (apply IH; intros; apply Hf; by right).
  done.
Qed.

(** ** Component status resolver *)

Lemma get_pipeline_executions_found store pipeline_name c :
  MetadataStore.get_context_by_type_and_name store "pipeline" (PyStr pipeline_name)
    = Some c ->
  get_pipeline_executions store pipeline_name =
  (Return (MetadataStore.get_executions_by_context store (Context.id c)),
   [Q_get_context_by_type_and_name "pipeline" (PyStr pipeline_name);
    Q_get_executions_by_context (Context.id c)]).
Proof.
  intros Hc. unfold get_pipeline_executions, get_pipeline_context,
    store_get_context_by_type_and_name, store_get_executions_by_context.
  rewrite bind_ask, Hc. done.
Qed.


(** C9.  When the pipeline context of [P] resolves and holds N
    executions, [get_components_status P] returns, without raising, a
    mapping with one entry per distinct [component_id]: its keys are
    pairwise distinct and are exactly the component ids of the
    executions, it has N entries when these ids are pairwise distinct,
    and each key maps to the state of the last execution (in backend
    order) that carries it. *)
Theorem get_components_status_entries store pipeline_name c :
  MetadataStore.get_context_by_type_and_name store "pipeline" (PyStr pipeline_name)
    = Some c ->
  let execs := MetadataStore.get_executions_by_context store (Context.id c) in
  exists d,
    result (get_components_status store pipeline_name) = Return d
    /\ NoDup (dict_keys d)
    /\ (forall k, k ∈ dict_keys d <-> k ∈ map Execution.component_id execs)
    /\ (NoDup (map Execution.component_id execs) -> length d = length execs)
    /\ (forall l1 e l2, execs = l1 ++ e :: l2 ->
          Execution.component_id e ∉ map Execution.component_id l2 ->
          dict_get (Execution.component_id e) d = Some (Execution.state e)).
Proof.
  intros Hc execs. unfold get_components_status.
  rewrite (get_pipeline_executions_found _ _ _ Hc). fold execs.
  set (items := map (fun e => (Execution.component_id e, Execution.state e)) execs).
  assert (Hkeys : items.*1 = map Execution.component_id execs).
  { unfold items. clear. induction execs; csimpl; [done|]. by f_equal. }
  exists (dict_of items). split_and!.
  - done.
  - apply dict_keys_foldl_NoDup. constructor.
  - intros k. unfold dict_of. rewrite dict_keys_foldl, Hkeys.
    unfold dict_keys. csimpl. rewrite elem_of_nil. tauto.
  - intros Hnd. unfold dict_of. rewrite dict_length_foldl.
    + unfold items. rewrite length_map. done.
    + csimpl. by rewrite Hkeys.
  - intros l1 e l2 Hexecs Hlast. unfold dict_of, items. rewrite Hexecs.
    rewrite map_app. csimpl. apply dict_get_foldl_last.
    intros Hin. apply Hlast. clear -Hin.
    induction l2 as [|x l2 IH]; csimpl in *; [done|].
    apply elem_of_cons in Hin as [->|Hin]; [left|right; auto].
Qed.

Lemma get_components_status_entries_witness :
  exists d,
    result (get_components_status (table_store duplicate_pipeline) "P") = Return d
    /\ length d = 2%nat
    /\ dict_get "pkg.loader" d = Some "cached".
Proof.
  destruct (get_components_status_entries (table_store duplicate_pipeline) "P"
              (Context.mk 1 "pipeline" "P" []) eq_refl)
    as (d & Hd & _ & _ & _ & Hlast).
  exists d. split; [exact Hd|]. split.
  - vm_compute in Hd. injection Hd as <-. reflexivity.
  - exact (Hlast [execution 10 "pkg.loader" "running";
                  execution 11 "pkg.trainer" "complete"]
                 (execution 12 "pkg.loader" "cached") [] eq_refl
                 (not_elem_of_nil _)).
Defined.

(** C9, as stated, fails on a store where the executions of [P] hang on
    its run context and no context of type [pipeline] is named [P]: the
    lookup of lines 141-145 asks for the type [pipeline], and reading
    the id of its [None] answer raises. *)
Lemma run_context_components_status_raises :
  MetadataStore.get_context_by_type_and_name (table_store run_context_only)
    "run" (PyStr "P") = Some (Context.mk 7 "run" "P" [])
  /\ length (MetadataStore.get_executions_by_context
               (table_store run_context_only) 7) = 2%nat
  /\ get_components_status (table_store run_context_only) "P"
     = (Raise AttributeError,
        [Q_get_context_by_type_and_name "pipeline" (PyStr "P")]).
Proof. split_and!; reflexivity. Qed.


(** C2.  On a pipeline whose single component is [complete], every entry
    of [get_components_status] is [complete], and [get_pipeline_status]
    answers [Running]. *)
Theorem get_pipeline_status_complete_pipeline_Running :
  result (get_components_status (table_store complete_pipeline) "P")
    = Return [("pkg.trainer", "complete")]
  /\ result (get_pipeline_status (table_store complete_pipeline) "P")
    = Return "Running".
Proof. split; reflexivity. Qed.

(** ** Cache-chain tracer *)

(** C1.  On the cycle of two cached executions the tracer makes no hop,
    whatever number of hops is allowed: for either member it fetches the
    events of the execution and raises [NameError] at the test of its
    state. *)
Theorem two_cycle_raises_NameError fuel :
  find_original_context_and_artifacts_from_exec (table_store two_cycle) (S fuel)
    (Some (execution 1 "pkg.trainer" "cached"))
  = (Raise NameError, [Q_get_events_by_execution_ids [1]])
  /\ find_original_context_and_artifacts_from_exec (table_store two_cycle) (S fuel)
       (Some (execution 2 "pkg.evaluator" "cached"))
     = (Raise NameError, [Q_get_events_by_execution_ids [2]]).
Proof. split; reflexivity. Qed.

(** C3.  In the run-41 / run-42 scenario the trace of the trainer of
    run-42 ends at the cached execution itself: after the two queries of
    the lookup and the query for its events, the test of its state
    raises [NameError]; run-41 is never reached. *)
Theorem scenario_trace_raises_NameError fuel :
  let traced := find_original_context_and_artifacts_from_context
                  Scenario.store (S fuel) "run-42" "trainer" in
  traced
  = (Raise NameError,
     [Q_get_context_by_type_and_name "run" (PyStr "run-42");
      Q_get_executions_by_context 42;
      Q_get_events_by_execution_ids [2]])
  /\ result traced <> Return (Some ("run-41", [Scenario.a1]))
  /\ Q_get_contexts_by_execution 0 ∉ queries traced.
Proof.
  split_and!; [reflexivity | discriminate |].
  intros Hin. cbn in Hin.
  repeat (apply elem_of_cons in Hin as [Hin|Hin]; [discriminate|]).
  by apply elem_of_nil in Hin.
Qed.

(** C4.  For the cached execution that recorded no output event the
    tracer collects no artifact id, and raises [NameError] at the test
    of the state, before the collected ids are looked at. *)
Theorem cached_without_output_raises_NameError fuel :
  let e := execution 1 "pkg.trainer" "cached" in
  Execution.state e = "cached"
  /\ collected_artifact_ids (table_store cached_without_output) e = []
  /\ find_original_context_and_artifacts_from_exec
       (table_store cached_without_output) (S fuel) (Some e)
     = (Raise NameError, [Q_get_events_by_execution_ids [1]]).
Proof. split_and!; reflexivity. Qed.

(** C8.  For the cached execution 2 of the two-execution cycle, whose
    events hold two output events, the ids collected are 101 and 102, in
    that order, and the last is 102; the events of artifact 102 are
    never asked for: the only query is that for the events of the
    execution, and the test of the state raises [NameError]. *)
Theorem cached_last_output_not_followed fuel :
  let e := execution 2 "pkg.evaluator" "cached" in
  let traced := find_original_context_and_artifacts_from_exec
                  (table_store two_cycle) (S fuel) (Some e) in
  Execution.state e = "cached"
  /\ collected_artifact_ids (table_store two_cycle) e = [101; 102]
  /\ result traced = Raise NameError
  /\ Q_get_events_by_artifact_ids [102] ∉ queries traced.
Proof.
  split_and!; [reflexivity..|].
  intros Hin. cbn in Hin. apply list_elem_of_singleton in Hin. discriminate.
Qed.

(** ** Lookup by component type *)

Section LookupFacts.

Variable store : MetadataStore.t.
Variable component_type : string.

Local Abbreviation passed_over := (passed_over component_type).

Lemma loop_cons e rest :
  get_execution_by_component_type_loop component_type (e :: rest) =
  match instance_name e with
  | None => raise IndexError
  | Some s => if String.eqb s component_type then ret (Some e)
              else get_execution_by_component_type_loop component_type rest
  end.
Proof.
  cbn [get_execution_by_component_type_loop]. unfold index, instance_name.
  destruct (split "." (Execution.component_id e) !! 1%nat) as [s|]; [|done].
  by rewrite bind_ret.
Qed.

Lemma loop_no_match execs :
  (forall e, e ∈ execs -> instance_name e <> Some component_type) ->
  get_execution_by_component_type_loop component_type execs = ret None
  \/ get_execution_by_component_type_loop component_type execs = raise IndexError.
Proof.
  induction execs as [|e rest IH]; intros Hno; [by left|].
  rewrite loop_cons.
  destruct (instance_name e) as [s|] eqn:Hs; [|by right].
  destruct (String.eqb_spec s component_type) as [->|Hne].
  - exfalso. apply (Hno e); [left|done].
  - apply IH. intros x Hx. apply Hno. by right.
Qed.

Lemma loop_passes_over execs :
  Forall passed_over execs ->
  get_execution_by_component_type_loop component_type execs = ret None.
Proof.
  induction 1 as [|e rest (s & Hs & Hne) _ IH]; [done|].
  rewrite loop_cons, Hs.
  by destruct (String.eqb_spec s component_type) as [->|_].
Qed.

Lemma loop_first_match l1 e l2 :
  Forall passed_over l1 -> instance_name e = Some component_type ->
  get_execution_by_component_type_loop component_type (l1 ++ e :: l2)
  = ret (Some e).
Proof.
  intros Hl1 He. induction Hl1 as [|x l1 (s & Hs & Hne) _ IH].
  - cbn [app]. rewrite loop_cons, He. by rewrite String.eqb_refl.
  - cbn [app]. rewrite loop_cons, Hs.
    by destruct (String.eqb_spec s component_type) as [->|_].
Qed.

Lemma get_execution_by_component_type_found context c :
  MetadataStore.get_context_by_type_and_name store "run" (PyStr context) = Some c ->
  let execs := MetadataStore.get_executions_by_context store (Context.id c) in
  get_execution_by_component_type store context component_type =
  (result (get_execution_by_component_type_loop component_type execs),
   Q_get_context_by_type_and_name "run" (PyStr context)
     :: Q_get_executions_by_context (Context.id c)
     :: queries (get_execution_by_component_type_loop component_type execs)).
Proof.
  intros Hc execs. unfold get_execution_by_component_type,
    store_get_context_by_type_and_name, store_get_executions_by_context.
  rewrite bind_ask, Hc. cbn [attr]. rewrite bind_ret, bind_ask.
  unfold result, queries. by cbn [fst snd].
Qed.

Lemma get_execution_by_component_type_no_context context :
  MetadataStore.get_context_by_type_and_name store "run" (PyStr context) = None ->
  get_execution_by_component_type store context component_type =
  (Raise AttributeError, [Q_get_context_by_type_and_name "run" (PyStr context)]).
Proof.
  intros Hc. unfold get_execution_by_component_type,
    store_get_context_by_type_and_name.
  by rewrite bind_ask, Hc.
Qed.

End LookupFacts.

(** C5.  If no execution of the context has [component_type] as the
    second dot-segment of its component id, the lookup-and-trace raises
    (the lookup yields [None], whose [id] the tracer reads: an
    [AttributeError], when the context resolves and every component id
    has a second segment).  If there is one, the first such execution in
    backend order is the one handed to the tracer. *)
Theorem by_component_raises_or_traces_first_match
    store fuel context component_type :
  ((forall c e,
      MetadataStore.get_context_by_type_and_name store "run" (PyStr context)
        = Some c ->
      e ∈ MetadataStore.get_executions_by_context store (Context.id c) ->
      instance_name e <> Some component_type) ->
   exists ex,
     result (find_original_context_and_artifacts_from_context
               store (S fuel) context component_type) = Raise ex)
  /\ (forall c,
        MetadataStore.get_context_by_type_and_name store "run" (PyStr context)
          = Some c ->
        Forall (passed_over component_type)
          (MetadataStore.get_executions_by_context store (Context.id c)) ->
        find_original_context_and_artifacts_from_context
          store (S fuel) context component_type
        = (Raise AttributeError,
           [Q_get_context_by_type_and_name "run" (PyStr context);
            Q_get_executions_by_context (Context.id c)]))
  /\ (forall c l1 e l2,
        MetadataStore.get_context_by_type_and_name store "run" (PyStr context)
          = Some c ->
        MetadataStore.get_executions_by_context store (Context.id c)
          = l1 ++ e :: l2 ->
        Forall (passed_over component_type) l1 ->
        instance_name e = Some component_type ->
        let traced :=
          find_original_context_and_artifacts_from_exec store (S fuel) (Some e) in
        find_original_context_and_artifacts_from_context
          store (S fuel) context component_type
        = (result traced,
           Q_get_context_by_type_and_name "run" (PyStr context)
             :: Q_get_executions_by_context (Context.id c)
             :: queries traced)).
Proof.
  unfold find_original_context_and_artifacts_from_context. split_and!.
  - intros Hno.
    destruct (MetadataStore.get_context_by_type_and_name store "run"
                (PyStr context)) as [c|] eqn:Hc.
    + rewrite (get_execution_by_component_type_found _ _ _ _ Hc).
      destruct (loop_no_match component_type
                  (MetadataStore.get_executions_by_context store (Context.id c)))
        as [-> | ->].
      * intros e He. exact (Hno c e eq_refl He).
      * by exists AttributeError.
      * by exists IndexError.
    + rewrite (get_execution_by_component_type_no_context _ _ _ Hc).
      by exists AttributeError.
  - intros c Hc Hall.
    rewrite (get_execution_by_component_type_found _ _ _ _ Hc).
    by rewrite (loop_passes_over _ _ Hall).
  - intros c l1 e l2 Hc Hexecs Hl1 He. cbv zeta.
    rewrite (get_execution_by_component_type_found _ _ _ _ Hc), Hexecs.
    rewrite (loop_first_match _ _ _ _ Hl1 He).
    unfold ret, result, queries. cbn [fst snd bind].
    by destruct (find_original_context_and_artifacts_from_exec _ _ _).
Qed.

Lemma scenario_loader_passed_over : passed_over "trainer" Scenario.e1.
Proof. exists "loader". split; [reflexivity | discriminate]. Qed.

Lemma scenario_trainer_passed_over : passed_over "evaluator" Scenario.e2.
Proof. exists "trainer". split; [reflexivity | discriminate]. Qed.

Lemma scenario_loader_passed_over' : passed_over "evaluator" Scenario.e1.
Proof. exists "loader". split; [reflexivity | discriminate]. Qed.

Lemma by_component_raises_or_traces_first_match_witness :
  find_original_context_and_artifacts_from_context
    Scenario.store 2 "run-42" "evaluator"
  = (Raise AttributeError,
     [Q_get_context_by_type_and_name "run" (PyStr "run-42");
      Q_get_executions_by_context 42])
  /\ result (find_original_context_and_artifacts_from_context
               Scenario.store 2 "run-42" "trainer")
     = result (find_original_context_and_artifacts_from_exec
                 Scenario.store 2 (Some Scenario.e2)).
Proof.
  destruct (by_component_raises_or_traces_first_match
              Scenario.store 1 "run-42" "evaluator") as (_ & Hnone & _).
  destruct (by_component_raises_or_traces_first_match
              Scenario.store 1 "run-42" "trainer") as (_ & _ & Hfirst).
  split.
  - apply (Hnone Scenario.run_42 eq_refl).
    repeat constructor;
      [apply scenario_loader_passed_over' | apply scenario_trainer_passed_over].
  - rewrite (Hfirst Scenario.run_42 [Scenario.e1] Scenario.e2 [] eq_refl eq_refl
               (Forall_cons_2 _ _ _ scenario_loader_passed_over (Forall_nil_2 _))
               eq_refl).
    reflexivity.
Defined.

(** ** Outcome query engine *)

Section ConditionFacts.

Variable store : MetadataStore.t.

Lemma filter_executions_by_component_registered component :
  registered store component ->
  result (filter_executions_by_component store component)
  = Return (filter (fun e => Execution.component_id e = component)
                   (MetadataStore.get_executions store)).
Proof.
  intros Hreg. unfold filter_executions_by_component, list_registered_components,
    store_get_executions.
  rewrite bind_assoc, bind_ask, bind_ret. unfold result at 1. cbn [fst].
  rewrite bool_decide_eq_true_2 by (by apply elem_of_remove_dups).
  cbn [py_assert]. by rewrite bind_ret, bind_ask.
Qed.

Lemma filter_executions_by_component_unregistered component :
  ~ registered store component ->
  result (filter_executions_by_component store component) = Raise AssertionError.
Proof.
  intros Hreg. unfold filter_executions_by_component, list_registered_components,
    store_get_executions.
  rewrite bind_assoc, bind_ask, bind_ret. unfold result at 1. cbn [fst].
  rewrite bool_decide_eq_false_2; [done|].
  intros Hin. by apply Hreg, elem_of_remove_dups.
Qed.

Lemma list_contexts_by_condition_unregistered cond :
  ~ registered store (component cond) ->
  result (list_contexts_by_condition store cond) = Raise AssertionError.
Proof.
  intros Hreg. unfold list_contexts_by_condition, filter_executions_by_condition.
  rewrite bind_assoc. apply result_bind_Raise.
  by apply filter_executions_by_component_unregistered.
Qed.

Lemma list_contexts_by_condition_evaluates cond :
  evaluates store cond ->
  exists ctxs,
    result (list_contexts_by_condition store cond) = Return ctxs
    /\ forall c_id, c_id ∈ map Context.id ctxs <-> satisfies store cond c_id.
Proof.
  intros [Hreg Hctx].
  set (matching :=
         filter (fun e => string_value (Execution.properties e) (property_name cond)
                          = value cond)
                (filter (fun e => Execution.component_id e = component cond)
                        (MetadataStore.get_executions store))).
  set (first_context := fun e =>
         default (Context.mk 0 "" "" [])
                 (head (MetadataStore.get_contexts_by_execution store
                          (Execution.id e)))).
  assert (Hmatching : forall e, e ∈ matching <->
            e ∈ MetadataStore.get_executions store /\ matches cond e).
  { intros e. unfold matching, matches. rewrite !list_elem_of_filter. tauto. }
  exists (map first_context matching). split.
  - unfold list_contexts_by_condition, filter_executions_by_condition.
    rewrite bind_assoc.
    rewrite (result_bind_Return _ _ _
               (filter_executions_by_component_registered _ Hreg)).
    rewrite bind_ret. fold matching. unfold map_execution_to_context.
    apply for_each_returns. intros e [He Hm]%Hmatching.
    unfold store_get_contexts_by_execution. rewrite bind_ask.
    unfold first_context, index. specialize (Hctx e He Hm).
    by destruct (MetadataStore.get_contexts_by_execution store (Execution.id e)).
  - intros c_id. rewrite <- list_fmap_compose, list_elem_of_fmap. split.
    + intros (e & -> & [He Hm]%Hmatching). exists e, (first_context e).
      split_and!; [done..| |done]. unfold first_context.
      specialize (Hctx e He Hm).
      by destruct (MetadataStore.get_contexts_by_execution store (Execution.id e)).
    + intros (e & ctx & He & Hm & Hhead & <-). exists e. split.
      * cbn. unfold first_context. by rewrite Hhead.
      * apply Hmatching. done.
Qed.

Lemma conditions_loop_cons cond rest targets :
  get_outcomes_conditions_loop store (cond :: rest) targets =
  (context_w_cond <- list_contexts_by_condition store cond ;;
   get_outcomes_conditions_loop store rest
     (filter (fun c => c ∈ map Context.id context_w_cond) targets)).
Proof. done. Qed.

(** The loop over conditions keeps, in order, the targets that satisfy
    every condition. *)
Lemma conditions_loop_evaluates conditions targets :
  Forall (evaluates store) conditions ->
  exists ids,
    result (get_outcomes_conditions_loop store conditions targets) = Return ids
    /\ sublist ids targets
    /\ forall c, c ∈ ids <->
                 c ∈ targets /\ Forall (fun cond => satisfies store cond c) conditions.
Proof.
  intros Hall. revert targets.
  induction Hall as [|cond rest Hcond _ IH]; intros targets.
  - exists targets. split_and!; [done|done|].
    intros c. split; [by split|tauto].
  - destruct (list_contexts_by_condition_evaluates cond Hcond)
      as (ctxs & Hres & Hsat).
    destruct (IH (filter (fun c => c ∈ map Context.id ctxs) targets))
      as (ids & Hids & Hsub & Hin).
    exists ids. split_and!.
    + rewrite conditions_loop_cons.
      by rewrite (result_bind_Return _ _ _ Hres).
    + etrans; [exact Hsub|]. apply sublist_filter.
    + intros c. rewrite Hin, list_elem_of_filter, Forall_cons, Hsat. tauto.
Qed.

(** A condition on an unregistered component keeps the loop from
    returning, wherever in the list it stands. *)
Lemma conditions_loop_unregistered conditions cond targets ids :
  cond ∈ conditions -> ~ registered store (component cond) ->
  result (get_outcomes_conditions_loop store conditions targets) <> Return ids.
Proof.
  intros Hin Hreg. revert targets.
  induction conditions as [|cond' rest IH]; intros targets;
    [by apply elem_of_nil in Hin|].
  rewrite conditions_loop_cons. intros (ctxs & Hres & Hrest)%result_bind_inv.
  apply elem_of_cons in Hin as [<-|Hin].
  - rewrite list_contexts_by_condition_unregistered in Hres by done. done.
  - by apply (IH Hin _ Hrest).
Qed.

Lemma conditions_loop_app pre post targets :
  get_outcomes_conditions_loop store (pre ++ post) targets =
  (ids <- get_outcomes_conditions_loop store pre targets ;;
   get_outcomes_conditions_loop store post ids).
Proof.
  revert targets. induction pre as [|cond pre IH]; intros targets.
  - cbn [app get_outcomes_conditions_loop]. by rewrite bind_ret.
  - cbn [app]. rewrite !conditions_loop_cons, bind_assoc.
    apply bind_ext. intros ctxs. apply IH.
Qed.

End ConditionFacts.

(** C6.  With both [contexts] and [context_names] non-empty,
    [get_outcomes] raises its usage error and has issued no backend
    query. *)
Theorem get_outcomes_both_selectors_raises
    store contexts context_names output_components conditions :
  truthy contexts = true -> truthy context_names = true ->
  get_outcomes store contexts context_names output_components conditions
  = (Raise (Exception "Cant define context id/names at the same time"), []).
Proof.
  intros Hc Hn. unfold get_outcomes. by rewrite Hc, Hn.
Qed.

Lemma get_outcomes_both_selectors_raises_witness :
  get_outcomes (table_store two_runs) (Some ["run-41"]) (Some ["run-42"])
    None None
  = (Raise (Exception "Cant define context id/names at the same time"), []).
Proof.
  exact (get_outcomes_both_selectors_raises (table_store two_runs)
           (Some ["run-41"]) (Some ["run-42"]) None None eq_refl eq_refl).
Defined.


Lemma two_runs_evaluates :
  evaluates (table_store two_runs)
            (mk_condition "pkg.trainer" "state" "complete").
Proof.
  split.
  - unfold registered. cbn. left.
  - intros e He _. cbn in He.
    apply elem_of_cons in He as [->|He];
      [|apply elem_of_cons in He as [->|He]; [|by apply elem_of_nil in He]];
      vm_compute; discriminate.
Qed.





Lemma target_context_ids_returns store contexts context_names :
  (forall c, c ∈ default [] contexts ->
     MetadataStore.get_context_by_type_and_name store "run" (PyStr c) <> None) ->
  exists ids,
    result (get_outcomes_target_context_ids store contexts context_names)
    = Return ids.
Proof.
  intros Hresolve. unfold get_outcomes_target_context_ids.
  destruct (truthy contexts).
  - eexists. apply (for_each_returns _
      (fun c => Context.id
         (default (Context.mk 0 "" "" [])
            (MetadataStore.get_context_by_type_and_name store "run" (PyStr c))))).
    intros c Hc. unfold store_get_context_by_type_and_name. rewrite bind_ask.
    specialize (Hresolve c Hc).
    by destruct (MetadataStore.get_context_by_type_and_name store "run" (PyStr c)).
  - destruct (truthy context_names); by eexists.
Qed.

Lemma truthy_app {A} (pre : list A) x post :
  truthy (Some (pre ++ x :: post)) = true.
Proof. by destruct pre. Qed.

(** C10, as the code has it.  A call of [get_outcomes] with a condition
    on a component that no execution of the store carries never returns
    a result mapping.  It fails with an [AssertionError] when the call
    gets as far as that condition: the two selectors are not both
    supplied, every name in [contexts] resolves to a run context, and
    the conditions before it are evaluated without an exception. *)
Theorem unregistered_condition_fails
    store contexts context_names output_components pre cond post :
  ~ registered store (component cond) ->
  (forall v,
     result (get_outcomes store contexts context_names output_components
               (Some (pre ++ cond :: post))) <> Return v)
  /\ (truthy contexts && truthy context_names = false ->
      (forall c, c ∈ default [] contexts ->
         MetadataStore.get_context_by_type_and_name store "run" (PyStr c)
           <> None) ->
      Forall (evaluates store) pre ->
      result (get_outcomes store contexts context_names output_components
                (Some (pre ++ cond :: post))) = Raise AssertionError).
Proof.
  intros Hreg. unfold get_outcomes. split.
  - intros v. destruct (truthy contexts && truthy context_names); [done|].
    intros (targets & _ & Hrest)%result_bind_inv.
    apply result_bind_inv in Hrest as (ids & Hloop & _).
    rewrite truthy_app in Hloop. cbn [from_option] in Hloop. unfold id in Hloop.
    refine (conditions_loop_unregistered store (pre ++ cond :: post) cond
              targets ids _ Hreg Hloop).
    apply elem_of_app. right. left.
  - intros -> Hresolve Hpre.
    destruct (target_context_ids_returns store contexts context_names Hresolve)
      as (targets & Htargets).
    rewrite (result_bind_Return _ _ _ Htargets).
    apply result_bind_Raise. rewrite truthy_app. cbn [from_option]. unfold id.
    rewrite conditions_loop_app.
    destruct (conditions_loop_evaluates store pre targets Hpre)
      as (ids & Hids & _).
    rewrite (result_bind_Return _ _ _ Hids), conditions_loop_cons.
    apply result_bind_Raise. by apply list_contexts_by_condition_unregistered.
Qed.

Lemma two_runs_pusher_unregistered :
  ~ registered (table_store two_runs) "pkg.pusher".
Proof.
  unfold registered. cbn. intros Hin.
  repeat (apply elem_of_cons in Hin as [Hin|Hin]; [discriminate|]).
  by apply elem_of_nil in Hin.
Qed.

Lemma unregistered_condition_fails_witness :
  result (get_outcomes (table_store two_runs) (Some ["run-41"]) None None
            (Some [mk_condition "pkg.trainer" "state" "complete";
                   mk_condition "pkg.pusher" "state" "complete"]))
  = Raise AssertionError.
Proof.
  refine (proj2 (unregistered_condition_fails (table_store two_runs)
                   (Some ["run-41"]) None None
                   [mk_condition "pkg.trainer" "state" "complete"]
                   (mk_condition "pkg.pusher" "state" "complete") []
                   two_runs_pusher_unregistered)
                eq_refl _
                (Forall_cons_2 _ _ _ two_runs_evaluates (Forall_nil_2 _))).
  intros c Hc. cbn in Hc. apply list_elem_of_singleton in Hc as ->.
  vm_compute. discriminate.
Defined.

(** C10, as stated, fails when both selectors are supplied: the usage
    error is raised before the condition on the unregistered component
    is looked at. *)
Lemma unregistered_condition_after_both_selectors :
  ~ registered (table_store two_runs) "pkg.pusher"
  /\ result (get_outcomes (table_store two_runs)
               (Some ["run-41"]) (Some ["run-42"]) None
               (Some [mk_condition "pkg.pusher" "state" "complete"]))
     = Raise (Exception "Cant define context id/names at the same time").
Proof. split; [apply two_runs_pusher_unregistered | reflexivity]. Qed.

(** * Further properties of the wrapper *)

(** ** Strings *)

Lemma append_String c s t : (String c s ++ t)%string = String c (s ++ t)%string.
Proof. reflexivity. Qed.

Lemma append_empty s : ("" ++ s)%string = s.
Proof. reflexivity. Qed.

Lemma prefix_spec needle haystack :
  String.prefix needle haystack = true <->
  exists post, haystack = (needle ++ post)%string.
Proof.
  revert haystack. induction needle as [|a needle IH]; intros haystack.
  - split; [intros _; exists haystack; reflexivity | by destruct haystack].
  - destruct haystack as [|b haystack]; cbn.
    + split; [discriminate | intros [post ?]; discriminate].
    + destruct (Ascii.ascii_dec a b) as [->|Hne].
      * rewrite IH. split; intros [post Hpost]; exists post;
          rewrite append_String in *; congruence.
      * split; [done|]. intros [post Hpost]. rewrite append_String in Hpost.
        congruence.
Qed.

Lemma contains_spec needle haystack :
  contains needle haystack = true <-> occurs_in needle haystack.
Proof.
  unfold occurs_in. induction haystack as [|c haystack IH].
  - cbn [contains]. rewrite orb_false_r, prefix_spec. split.
    + intros [post ->]. by exists "", post.
    + intros ([|? pre] & post & Heq); [by exists post|].
      by rewrite append_String in Heq.
  - cbn [contains]. rewrite orb_true_iff, prefix_spec, IH. split.
    + intros [[post Hpost] | (pre & post & ->)].
      * by exists "", post.
      * by exists (String c pre), post.
    + intros ([|c' pre] & post & Heq).
      * left. by exists post.
      * right. exists pre, post. rewrite append_String in Heq. congruence.
Qed.

Lemma contains_false needle haystack :
  contains needle haystack = false <-> ~ occurs_in needle haystack.
Proof. rewrite <- contains_spec. by destruct (contains needle haystack). Qed.

(** ** Artifacts of a component *)

Lemma get_artifacts_by_execution_loop_first evs1 ev evs2 :
  Forall (fun x => Event.type x <> 4) evs1 -> Event.type ev = 4 ->
  get_artifacts_by_execution_loop (evs1 ++ ev :: evs2) = [Event.artifact_id ev].
Proof.
  intros Hevs1 Hev. induction Hevs1 as [|x evs1 Hx _ IH]; cbn.
  - by rewrite bool_decide_eq_true_2.
  - by rewrite bool_decide_eq_false_2.
Qed.

Lemma get_artifacts_by_execution_loop_none events :
  Forall (fun x => Event.type x <> 4) events ->
  get_artifacts_by_execution_loop events = [].
Proof.
  induction 1 as [|x events Hx _ IH]; cbn; [done|].
  by rewrite bool_decide_eq_false_2.
Qed.

(** X1.  [get_artifacts_by_execution] fetches the artifact of the first
    event of type 4 only, with two queries; when the execution has no
    such event it raises an [AssertionError] after the first query. *)
Theorem get_artifacts_by_execution_first_output store execution_id :
  (forall evs1 ev evs2,
     MetadataStore.get_events_by_execution_ids store [execution_id]
       = evs1 ++ ev :: evs2 ->
     Forall (fun x => Event.type x <> 4) evs1 -> Event.type ev = 4 ->
     get_artifacts_by_execution store execution_id
     = (Return (MetadataStore.get_artifacts_by_id store [Event.artifact_id ev]),
        [Q_get_events_by_execution_ids [execution_id];
         Q_get_artifacts_by_id [Event.artifact_id ev]]))
  /\ (Forall (fun x => Event.type x <> 4)
        (MetadataStore.get_events_by_execution_ids store [execution_id]) ->
      get_artifacts_by_execution store execution_id
      = (Raise AssertionError, [Q_get_events_by_execution_ids [execution_id]])).
Proof.
  unfold get_artifacts_by_execution, store_get_events_by_execution_ids. split.
  - intros evs1 ev evs2 Hevents Hevs1 Hev. rewrite bind_ask, Hevents.
    by rewrite (get_artifacts_by_execution_loop_first _ _ _ Hevs1 Hev).
  - intros Hnone. rewrite bind_ask.
    by rewrite (get_artifacts_by_execution_loop_none _ Hnone).
Qed.

Lemma get_artifacts_by_execution_first_output_witness :
  get_artifacts_by_execution (table_store trainers_pipeline) 10
  = (Return [Artifact.mk 101 "/artifacts/model_2"],
     [Q_get_events_by_execution_ids [10]; Q_get_artifacts_by_id [101]])
  /\ get_artifacts_by_execution (table_store trainers_pipeline) 12
     = (Raise AssertionError, [Q_get_events_by_execution_ids [12]]).
Proof.
  destruct (get_artifacts_by_execution_first_output
              (table_store trainers_pipeline) 10) as [Hfirst _].
  destruct (get_artifacts_by_execution_first_output
              (table_store trainers_pipeline) 12) as [_ Hnone].
  split.
  - refine (Hfirst [Event.mk 10 100 3] (output_event 10 101)
              [output_event 10 102] eq_refl _ eq_refl).
    repeat constructor. discriminate.
  - apply Hnone. constructor.
Defined.

Section ComponentExecutionFacts.

Variable component_name : string.

Lemma get_component_execution_loop_first l1 e l2 :
  Forall (fun x => ~ occurs_in component_name (Execution.component_id x)) l1 ->
  occurs_in component_name (Execution.component_id e) ->
  get_component_execution_loop component_name (l1 ++ e :: l2) = Some e.
Proof.
  intros Hl1 He. induction Hl1 as [|x l1 Hx%contains_false _ IH]; cbn.
  - apply contains_spec in He. by rewrite He.
  - by rewrite Hx.
Qed.

Lemma get_component_execution_loop_none execs :
  Forall (fun x => ~ occurs_in component_name (Execution.component_id x)) execs ->
  get_component_execution_loop component_name execs = None.
Proof.
  induction 1 as [|x l1 Hx%contains_false _ IH]; cbn; [done|]. by rewrite Hx.
Qed.

End ComponentExecutionFacts.

(** X2.  [get_component_execution] selects by substring: it returns the
    first execution of the pipeline, in backend order, whose component
    id contains [component_name] anywhere, and [None], without raising,
    when there is none. *)
Theorem get_component_execution_first_substring_match
    store pipeline_name component_name c :
  MetadataStore.get_context_by_type_and_name store "pipeline" (PyStr pipeline_name)
    = Some c ->
  let execs := MetadataStore.get_executions_by_context store (Context.id c) in
  let absent x := ~ occurs_in component_name (Execution.component_id x) in
  (forall l1 e l2,
     execs = l1 ++ e :: l2 -> Forall absent l1 ->
     occurs_in component_name (Execution.component_id e) ->
     result (get_component_execution store pipeline_name component_name)
     = Return (Some e))
  /\ (Forall absent execs ->
      result (get_component_execution store pipeline_name component_name)
      = Return None).
Proof.
  intros Hc execs absent. unfold get_component_execution.
  rewrite (get_pipeline_executions_found _ _ _ Hc). fold execs. split.
  - intros l1 e l2 -> Hl1 He. unfold bind, ret, result. cbn [fst].
    by rewrite (get_component_execution_loop_first _ _ _ _ Hl1 He).
  - intros Hnone. unfold bind, ret, result. cbn [fst].
    by rewrite (get_component_execution_loop_none _ _ Hnone).
Qed.

Lemma get_component_execution_first_substring_match_witness :
  result (get_component_execution (table_store trainers_pipeline) "P" "trainer")
  = Return (Some (execution 10 "pkg.trainer_2" "complete"))
  /\ result (get_component_execution (table_store trainers_pipeline) "P" "evaluator")
     = Return None.
Proof.
  destruct (get_component_execution_first_substring_match
              (table_store trainers_pipeline) "P" "trainer"
              (Context.mk 1 "pipeline" "P" []) eq_refl) as [Hfirst _].
  destruct (get_component_execution_first_substring_match
              (table_store trainers_pipeline) "P" "evaluator"
              (Context.mk 1 "pipeline" "P" []) eq_refl) as [_ Hnone].
  split.
  - refine (Hfirst [] (execution 10 "pkg.trainer_2" "complete")
              [execution 11 "pkg.trainer" "cached";
               execution 12 "pkg.pusher" "running"] eq_refl (Forall_nil_2 _) _).
    by exists "pkg.", "_2".
  - apply Hnone. repeat constructor; by apply contains_false.
Defined.

(** X3.  [get_artifacts_by_component] hands the first execution whose
    component id contains [component_name] to
    [get_artifacts_by_execution], after the two queries of the lookup;
    when no component id contains the name it raises an
    [AttributeError] after those two queries, and no event is looked
    up. *)
Theorem get_artifacts_by_component_composes
    store pipeline_name component_name c :
  MetadataStore.get_context_by_type_and_name store "pipeline" (PyStr pipeline_name)
    = Some c ->
  let execs := MetadataStore.get_executions_by_context store (Context.id c) in
  let absent x := ~ occurs_in component_name (Execution.component_id x) in
  let lookup := [Q_get_context_by_type_and_name "pipeline" (PyStr pipeline_name);
                 Q_get_executions_by_context (Context.id c)] in
  (forall l1 e l2,
     execs = l1 ++ e :: l2 -> Forall absent l1 ->
     occurs_in component_name (Execution.component_id e) ->
     get_artifacts_by_component store pipeline_name component_name
     = (result (get_artifacts_by_execution store (Execution.id e)),
        lookup ++ queries (get_artifacts_by_execution store (Execution.id e))))
  /\ (Forall absent execs ->
      get_artifacts_by_component store pipeline_name component_name
      = (Raise AttributeError, lookup)).
Proof.
  intros Hc execs absent lookup.
  unfold get_artifacts_by_component, get_component_execution.
  rewrite (get_pipeline_executions_found _ _ _ Hc). fold execs. split.
  - intros l1 e l2 -> Hl1 He. unfold bind at 2. unfold ret.
    rewrite (get_component_execution_loop_first _ _ _ _ Hl1 He).
    unfold bind at 1. cbn [attr]. rewrite bind_ret.
    unfold result, queries.
    destruct (get_artifacts_by_execution store (Execution.id e)) as [r log].
    cbn [fst snd]. by rewrite app_nil_r.
  - intros Hnone. unfold bind at 2. unfold ret.
    rewrite (get_component_execution_loop_none _ _ Hnone).
    unfold bind at 1. cbn [attr]. rewrite bind_raise. unfold raise.
    by rewrite app_nil_r.
Qed.

Lemma get_artifacts_by_component_composes_witness :
  get_artifacts_by_component (table_store trainers_pipeline) "P" "trainer"
  = (Return [Artifact.mk 101 "/artifacts/model_2"],
     [Q_get_context_by_type_and_name "pipeline" (PyStr "P");
      Q_get_executions_by_context 1;
      Q_get_events_by_execution_ids [10]; Q_get_artifacts_by_id [101]])
  /\ get_artifacts_by_component (table_store trainers_pipeline) "P" "evaluator"
     = (Raise AttributeError,
        [Q_get_context_by_type_and_name "pipeline" (PyStr "P");
         Q_get_executions_by_context 1]).
Proof.
  destruct (get_artifacts_by_component_composes
              (table_store trainers_pipeline) "P" "trainer"
              (Context.mk 1 "pipeline" "P" []) eq_refl) as [Hfirst _].
  destruct (get_artifacts_by_component_composes
              (table_store trainers_pipeline) "P" "evaluator"
              (Context.mk 1 "pipeline" "P" []) eq_refl) as [_ Hnone].
  split.
  - refine (Hfirst [] (execution 10 "pkg.trainer_2" "complete")
              [execution 11 "pkg.trainer" "cached";
               execution 12 "pkg.pusher" "running"] eq_refl (Forall_nil_2 _) _).
    by exists "pkg.", "_2".
  - apply Hnone. repeat constructor; by apply contains_false.
Defined.

(** ** Is a component cached *)

Lemma is_component_cached_loop_agrees component_id execs :
  is_component_cached_loop component_id execs =
  match get_execution_by_component_type_loop component_id execs with
  | (Return (Some e), log) => (Raise NameError, log)
  | (Return None, log) => (Return false, log)
  | (Raise ex, log) => (Raise ex, log)
  | (OutOfFuel, log) => (OutOfFuel, log)
  end.
Proof.
  induction execs as [|e rest IH]; [done|].
  rewrite loop_cons. cbn [is_component_cached_loop]. unfold index.
  fold (instance_name e). destruct (instance_name e) as [s|]; [|done].
  rewrite bind_ret. by destruct (String.eqb s component_id).
Qed.

(** X4.  [is_component_cached] never answers [True].  It runs the lookup
    of [get_execution_by_component_type], with the same queries and the
    same exceptions; when no execution is found it returns [False], and
    when one is found the test of its state raises [NameError]. *)
Theorem is_component_cached_never_answers_True store context component_id :
  is_component_cached store context component_id
  = match get_execution_by_component_type store context component_id with
    | (Return (Some e), log) => (Raise NameError, log)
    | (Return None, log) => (Return false, log)
    | (Raise ex, log) => (Raise ex, log)
    | (OutOfFuel, log) => (OutOfFuel, log)
    end
  /\ result (is_component_cached store context component_id) <> Return true.
Proof.
  assert (Hagree :
    is_component_cached store context component_id
    = match get_execution_by_component_type store context component_id with
      | (Return (Some e), log) => (Raise NameError, log)
      | (Return None, log) => (Return false, log)
      | (Raise ex, log) => (Raise ex, log)
      | (OutOfFuel, log) => (OutOfFuel, log)
      end).
  { unfold is_component_cached, get_execution_by_component_type,
      store_get_context_by_type_and_name, store_get_executions_by_context.
    rewrite !bind_ask.
    destruct (MetadataStore.get_context_by_type_and_name store "run"
                (PyStr context)) as [c|]; [|done].
    cbn [attr]. rewrite !bind_ret, !bind_ask, is_component_cached_loop_agrees.
    unfold result, queries.
    destruct (get_execution_by_component_type_loop component_id _)
      as [[[e|]|ex|] log]; done. }
  split; [exact Hagree|]. rewrite Hagree.
  destruct (get_execution_by_component_type store context component_id)
    as [[[e|]|ex|] log]; done.
Qed.

(** ** Instance names *)

Lemma has_no_dot_String c s :
  has_no_dot (String c s) -> Ascii.eqb c "." = false /\ has_no_dot s.
Proof.
  intros Hno. split.
  - destruct (Ascii.eqb_spec c ".") as [->|]; [|done].
    exfalso. apply Hno. by exists "", s.
  - intros (pre & post & ->). apply Hno. by exists (String c pre), post.
Qed.

Lemma split_no_dot s : has_no_dot s -> split "." s = [s].
Proof.
  induction s as [|c s IH]; [done|].
  intros [Hc Hs]%has_no_dot_String. cbn [split]. by rewrite Hc, IH.
Qed.

Lemma split_at_first_dot a b :
  has_no_dot a -> split "." (a ++ String "." b)%string = a :: split "." b.
Proof.
  induction a as [|c a IH]; [done|].
  intros [Hc Ha]%has_no_dot_String.
  rewrite append_String. cbn [split]. by rewrite Hc, IH.
Qed.

(** X5.  The instance name of an execution is the part of its component
    id between the first dot and the second dot (or the end): what
    follows a second dot is ignored, and a component id without a dot
    has no instance name. *)
Theorem instance_name_is_second_segment e pkg name :
  has_no_dot pkg -> has_no_dot name ->
  (Execution.component_id e = (pkg ++ "." ++ name)%string ->
   instance_name e = Some name)
  /\ (forall tail,
        Execution.component_id e = (pkg ++ "." ++ name ++ "." ++ tail)%string ->
        instance_name e = Some name)
  /\ (has_no_dot (Execution.component_id e) -> instance_name e = None).
Proof.
  intros Hpkg Hname. unfold instance_name. split_and!.
  - intros ->. change ("." ++ name)%string with (String "." name).
    by rewrite (split_at_first_dot _ _ Hpkg), (split_no_dot _ Hname).
  - intros tail ->.
    change ("." ++ name ++ "." ++ tail)%string
      with (String "." (name ++ String "." tail)).
    by rewrite (split_at_first_dot _ _ Hpkg), (split_at_first_dot _ _ Hname).
  - intros Hno. by rewrite (split_no_dot _ Hno).
Qed.

Lemma no_dot_by_contains s : contains "." s = false -> has_no_dot s.
Proof. apply contains_false. Qed.

Lemma instance_name_is_second_segment_witness :
  instance_name (execution 1 "zenml.core.trainer" "complete") = Some "core"
  /\ instance_name (execution 13 "standalone" "complete") = None.
Proof.
  destruct (instance_name_is_second_segment
              (execution 1 "zenml.core.trainer" "complete") "zenml" "core"
              (no_dot_by_contains "zenml" eq_refl)
              (no_dot_by_contains "core" eq_refl)) as (_ & Htail & _).
  destruct (instance_name_is_second_segment
              (execution 13 "standalone" "complete") "" ""
              (no_dot_by_contains "" eq_refl)
              (no_dot_by_contains "" eq_refl)) as (_ & _ & Hnone).
  split.
  - exact (Htail "trainer" eq_refl).
  - exact (Hnone (no_dot_by_contains "standalone" eq_refl)).
Defined.

Lemma loop_reaches_dotless component_type l1 e l2 :
  Forall (passed_over component_type) l1 -> instance_name e = None ->
  get_execution_by_component_type_loop component_type (l1 ++ e :: l2)
  = raise IndexError.
Proof.
  intros Hl1 He. induction Hl1 as [|x l1 (s & Hs & Hne) _ IH].
  - cbn [app]. by rewrite loop_cons, He.
  - cbn [app]. rewrite loop_cons, Hs.
    by destruct (String.eqb_spec s component_type) as [->|_].
Qed.

(** X6.  An execution whose component id has no dot makes the lookup by
    component type fail with an [IndexError] as soon as the loop reaches
    it, whatever executions follow it, in
    [get_execution_by_component_type], in [is_component_cached] and in
    [find_original_context_and_artifacts_from_context] alike, after the
    two queries of the lookup. *)
Theorem dotless_component_id_raises
    store fuel context component_type c l1 e l2 :
  MetadataStore.get_context_by_type_and_name store "run" (PyStr context) = Some c ->
  MetadataStore.get_executions_by_context store (Context.id c) = l1 ++ e :: l2 ->
  Forall (passed_over component_type) l1 ->
  has_no_dot (Execution.component_id e) ->
  let lookup := [Q_get_context_by_type_and_name "run" (PyStr context);
                 Q_get_executions_by_context (Context.id c)] in
  get_execution_by_component_type store context component_type
    = (Raise IndexError, lookup)
  /\ is_component_cached store context component_type
      = (Raise IndexError, lookup)
  /\ find_original_context_and_artifacts_from_context
       store fuel context component_type = (Raise IndexError, lookup).
Proof.
  intros Hc Hexecs Hl1 Hno lookup.
  assert (Hloop : get_execution_by_component_type_loop component_type
                    (l1 ++ e :: l2) = raise IndexError).
  { apply loop_reaches_dotless; [done|].
    unfold instance_name. by rewrite (split_no_dot _ Hno). }
  assert (Hlookup : get_execution_by_component_type store context component_type
                    = (Raise IndexError, lookup)).
  { by rewrite (get_execution_by_component_type_found _ _ _ _ Hc), Hexecs, Hloop. }
  split_and!.
  - done.
  - unfold is_component_cached, store_get_context_by_type_and_name,
      store_get_executions_by_context.
    rewrite bind_ask, Hc. cbn [attr]. rewrite bind_ret, bind_ask, Hexecs.
    by rewrite is_component_cached_loop_agrees, Hloop.
  - unfold find_original_context_and_artifacts_from_context.
    by rewrite Hlookup.
Qed.

Lemma trainers_passed_over :
  Forall (passed_over "evaluator")
    [execution 10 "pkg.trainer_2" "complete";
     execution 11 "pkg.trainer" "cached";
     execution 12 "pkg.pusher" "running"].
Proof.
  repeat constructor.
  - exists "trainer_2". split; [reflexivity | discriminate].
  - exists "trainer". split; [reflexivity | discriminate].
  - exists "pusher". split; [reflexivity | discriminate].
Qed.

Lemma dotless_component_id_raises_witness :
  is_component_cached (table_store trainers_pipeline) "run-7" "evaluator"
  = (Raise IndexError,
     [Q_get_context_by_type_and_name "run" (PyStr "run-7");
      Q_get_executions_by_context 7]).
Proof.
  exact (proj1 (proj2 (dotless_component_id_raises
           (table_store trainers_pipeline) 1 "run-7" "evaluator"
           (Context.mk 7 "run" "run-7" [("run_id", "r7")])
           [execution 10 "pkg.trainer_2" "complete";
            execution 11 "pkg.trainer" "cached";
            execution 12 "pkg.pusher" "running"]
           (execution 13 "standalone" "complete") []
           eq_refl eq_refl trainers_passed_over
           (no_dot_by_contains "standalone" eq_refl)))).
Defined.

(** ** Loops over backend answers *)

Lemma for_each_all {A B} (f : A -> M B) (g : A -> B) (log : A -> list query) l :
  (forall x, x ∈ l -> f x = (Return (g x), log x)) ->
  for_each f l = (Return (map g l), concat (map log l)).
Proof.
  induction l as [|x l IH]; intros Hf; [done|].
  cbn [for_each map concat]. rewrite (Hf x) by left.
  rewrite IH by (intros; apply Hf; by right).
  unfold bind, ret. by rewrite app_nil_r.
Qed.

Lemma for_each_first_raise {A B} (f : A -> M B) (g : A -> B)
    (log : A -> list query) l1 x l2 ex logx :
  (forall y, y ∈ l1 -> f y = (Return (g y), log y)) ->
  f x = (Raise ex, logx) ->
  for_each f (l1 ++ x :: l2) = (Raise ex, concat (map log l1) ++ logx).
Proof.
  intros Hl1 Hx. induction l1 as [|y l1 IH].
  - cbn [app for_each map concat]. by rewrite Hx.
  - cbn [app for_each map concat]. rewrite (Hl1 y) by left.
    rewrite IH by (intros; apply Hl1; by right).
    unfold bind. by rewrite app_assoc.
Qed.

Lemma concat_singletons {A B} (f : A -> B) (l : list A) :
  concat (map (fun x => [f x]) l) = map f l.
Proof. induction l as [|x l IH]; [done|]. cbn. by rewrite IH. Qed.

(** X7.  [map_execution_to_context] asks for the contexts of each
    execution in turn and keeps the first one listed: it returns one
    context per execution when every execution has a context, and
    raises an [IndexError] at the first execution that has none,
    without asking about the executions after it. *)
Theorem map_execution_to_context_first_contexts store :
  (forall executions,
     Forall (has_context store) executions ->
     exists contexts,
       map_execution_to_context store executions
       = (Return contexts,
          map (fun e => Q_get_contexts_by_execution (Execution.id e)) executions)
       /\ Forall2 (fun e c =>
                     head (MetadataStore.get_contexts_by_execution store
                             (Execution.id e)) = Some c)
                  executions contexts)
  /\ (forall l1 e l2,
        Forall (has_context store) l1 ->
        MetadataStore.get_contexts_by_execution store (Execution.id e) = [] ->
        map_execution_to_context store (l1 ++ e :: l2)
        = (Raise IndexError,
           map (fun e => Q_get_contexts_by_execution (Execution.id e))
               (l1 ++ [e]))).
Proof.
  set (first_context := fun e =>
         default (Context.mk 0 "" "" [])
           (head (MetadataStore.get_contexts_by_execution store (Execution.id e)))).
  assert (Hbody : forall e, has_context store e ->
            (contexts <- store_get_contexts_by_execution store (Execution.id e) ;;
             index contexts 0)
            = (Return (first_context e),
               [Q_get_contexts_by_execution (Execution.id e)])).
  { intros e He. unfold store_get_contexts_by_execution. rewrite bind_ask.
    unfold first_context, index, has_context in *.
    by destruct (MetadataStore.get_contexts_by_execution store (Execution.id e)). }
  unfold map_execution_to_context. split.
  - intros executions Hall. rewrite Forall_forall in Hall.
    exists (map first_context executions). split.
    + rewrite (for_each_all _ first_context
                 (fun e => [Q_get_contexts_by_execution (Execution.id e)])).
      * by rewrite concat_singletons.
      * intros e He. apply Hbody. by apply Hall.
    + apply Forall2_fmap_r, Forall_Forall2_diag, Forall_forall.
      intros e He. specialize (Hall e He).
      unfold first_context, has_context, compose in *.
      by destruct (MetadataStore.get_contexts_by_execution store (Execution.id e)).
  - intros l1 e l2 Hl1 He. rewrite Forall_forall in Hl1.
    rewrite (for_each_first_raise _ first_context
               (fun e => [Q_get_contexts_by_execution (Execution.id e)])
               l1 e l2 IndexError
               [Q_get_contexts_by_execution (Execution.id e)]).
    + by rewrite concat_singletons, map_app.
    + intros y Hy. apply Hbody. by apply Hl1.
    + unfold store_get_contexts_by_execution. rewrite bind_ask.
      unfold index. by rewrite He.
Qed.

Lemma map_execution_to_context_first_contexts_witness :
  map_execution_to_context (table_store trainers_pipeline)
    [execution 10 "pkg.trainer_2" "complete";
     execution 13 "standalone" "complete";
     execution 14 "pkg.unknown" "complete";
     execution 11 "pkg.trainer" "cached"]
  = (Raise IndexError,
     [Q_get_contexts_by_execution 10; Q_get_contexts_by_execution 13;
      Q_get_contexts_by_execution 14]).
Proof.
  refine (proj2 (map_execution_to_context_first_contexts
                   (table_store trainers_pipeline))
                [execution 10 "pkg.trainer_2" "complete";
                 execution 13 "standalone" "complete"]
                (execution 14 "pkg.unknown" "complete")
                [execution 11 "pkg.trainer" "cached"] _ eq_refl).
  repeat constructor; discriminate.
Defined.

(** ** Executions of a component *)

(** X8.  [filter_executions_by_component] never returns an empty list:
    for a component that some execution of the store carries it returns
    those executions, in store order, after listing the executions
    twice; for any other component it raises an [AssertionError] after
    listing them once. *)
Theorem filter_executions_by_component_never_empty store component :
  (registered store component ->
   exists e l,
     filter_executions_by_component store component
     = (Return (e :: l), [Q_get_executions; Q_get_executions])
     /\ e :: l = filter (fun x => Execution.component_id x = component)
                        (MetadataStore.get_executions store))
  /\ (~ registered store component ->
      filter_executions_by_component store component
      = (Raise AssertionError, [Q_get_executions])).
Proof.
  unfold filter_executions_by_component, list_registered_components,
    store_get_executions.
  rewrite bind_assoc, bind_ask, bind_ret. split.
  - intros Hreg.
    rewrite bool_decide_eq_true_2 by (by apply elem_of_remove_dups).
    cbn [py_assert]. rewrite bind_ret, bind_ask.
    unfold ret, result, queries. cbn [fst snd].
    destruct (filter _ (MetadataStore.get_executions store)) as [|e l] eqn:Hfilter.
    + exfalso. unfold registered in Hreg.
      apply list_elem_of_fmap in Hreg as (e & He & Hin).
      assert (Hmem : e ∈ filter (fun x => Execution.component_id x = component)
                                (MetadataStore.get_executions store))
        by (by apply list_elem_of_filter).
      rewrite Hfilter in Hmem. by apply elem_of_nil in Hmem.
    + by exists e, l.
  - intros Hreg. rewrite bool_decide_eq_false_2; [done|].
    intros Hin. by apply Hreg, elem_of_remove_dups.
Qed.

Lemma filter_executions_by_component_never_empty_witness :
  filter_executions_by_component (table_store two_runs) "pkg.pusher"
  = (Raise AssertionError, [Q_get_executions]).
Proof.
  exact (proj2 (filter_executions_by_component_never_empty
                  (table_store two_runs) "pkg.pusher")
               two_runs_pusher_unregistered).
Defined.

(** ** Outcomes in one context *)

Section DictMoreFacts.
Context {K V : Type} `{EqDecision K}.
Implicit Types (d : list (K * V)) (k : K) (v : V).

Lemma dict_set_fresh k v d : k ∉ dict_keys d -> dict_set k v d = d ++ [(k, v)].
Proof.
  unfold dict_keys. induction d as [|[k' v'] d IH]; csimpl; [done|].
  intros [Hne Hk]%not_elem_of_cons. rewrite decide_False by done.
  by rewrite IH.
Qed.

Lemma dict_foldl_NoDup items d :
  NoDup (dict_keys d ++ items.*1) -> foldl dict_step d items = d ++ items.
Proof.
  revert d. induction items as [|[k v] items IH]; intros d Hnd; csimpl.
  - by rewrite app_nil_r.
  - unfold dict_step at 2. csimpl. rewrite dict_set_fresh.
    + rewrite IH; [by rewrite <- app_assoc|].
      unfold dict_keys in *. rewrite fmap_app, <- app_assoc. done.
    + apply NoDup_app in Hnd as (_ & Hnd & _). intros Hin.
      apply (Hnd k Hin). left.
Qed.

(** Building a dictionary from items with distinct keys keeps them. *)
Lemma dict_of_NoDup (items : list (K * V)) :
  NoDup items.*1 -> dict_of items = items.
Proof. intros Hnd. unfold dict_of. by rewrite dict_foldl_NoDup. Qed.

Lemma dict_get_map_values {W} (h : K -> V -> W) k d :
  dict_get k (map (fun kv => (kv.1, h kv.1 kv.2)) d) = h k <$> dict_get k d.
Proof.
  induction d as [|[k' v'] d IH]; csimpl; [done|].
  destruct (decide (k' = k)) as [->|]; [done|]. exact IH.
Qed.

End DictMoreFacts.

(** X9.  In a run context that resolves, [get_outcomes_in_context]
    returns one entry per component id that is both selected (listed in
    [output_components], or registered anywhere in the store when none
    are listed) and carried by an execution of the context.  The entry
    of a component holds the artifacts of the output events of the last
    execution of the context that carries it, cached or not: no cache
    hit is traced. *)
Theorem get_outcomes_in_context_untraced store context output_components c :
  MetadataStore.get_context_by_type_and_name store "run" context = Some c ->
  let output_ids :=
    if truthy output_components then default [] output_components
    else remove_dups (map Execution.component_id
                          (MetadataStore.get_executions store)) in
  let execs := MetadataStore.get_executions_by_context store (Context.id c) in
  exists d,
    result (get_outcomes_in_context store context output_components) = Return d
    /\ NoDup (dict_keys d)
    /\ (forall k, k ∈ dict_keys d <->
                  k ∈ output_ids /\ k ∈ map Execution.component_id execs)
    /\ (forall l1 e l2,
          execs = l1 ++ e :: l2 ->
          Execution.component_id e ∈ output_ids ->
          Execution.component_id e ∉ map Execution.component_id l2 ->
          dict_get (Execution.component_id e) d
          = Some (MetadataStore.get_artifacts_by_id store
                    (collected_artifact_ids store e))).
Proof.
  intros Hc output_ids execs.
  set (pair_of := fun e : Execution.t => (Execution.component_id e, Execution.id e)).
  set (selected := fun e : Execution.t => Execution.component_id e ∈ output_ids).
  set (execs_components := dict_of (map pair_of (filter selected execs))).
  set (artifacts_of := fun (_ : string) (exec_id : Z) =>
         MetadataStore.get_artifacts_by_id store
           (output_artifact_ids
              (MetadataStore.get_events_by_execution_ids store [exec_id]))).
  set (entry := fun ce : string * Z => (ce.1, artifacts_of ce.1 ce.2)).
  assert (Hkeys_nodup : NoDup (dict_keys execs_components)).
  { apply dict_keys_foldl_NoDup. constructor. }
  assert (Hentries : (map entry execs_components).*1 = dict_keys execs_components).
  { unfold dict_keys. generalize execs_components. intros l.
    induction l as [|x l IH]; csimpl; [done|]. by f_equal. }
  assert (Hkeys : forall k, k ∈ dict_keys execs_components <->
                    k ∈ output_ids /\ k ∈ map Execution.component_id execs).
  { intros k. unfold execs_components, dict_of. rewrite dict_keys_foldl.
    unfold dict_keys. csimpl. rewrite elem_of_nil, <- list_fmap_compose.
    rewrite !list_elem_of_fmap. split.
    - intros [[]|(e & -> & [Hsel He]%list_elem_of_filter)].
      split; [exact Hsel | by exists e].
    - intros [Hsel (e & -> & He)]. right. exists e. split; [done|].
      by apply list_elem_of_filter. }
  exists (map entry execs_components). split_and!.
  - unfold get_outcomes_in_context.
    rewrite (result_bind_Return _ _ output_ids).
    2:{ unfold output_ids. by destruct (truthy output_components). }
    unfold store_get_context_by_type_and_name, store_get_executions_by_context.
    rewrite bind_ask, Hc. cbn [attr]. rewrite bind_ret, bind_ask.
    unfold result at 1. cbn [fst]. fold execs. fold pair_of.
    fold selected. fold execs_components.
    rewrite (result_bind_Return _ _ (map entry execs_components)).
    + unfold ret, result. cbn [fst]. f_equal. apply dict_of_NoDup.
      by rewrite Hentries.
    + apply for_each_returns. intros ce _.
      unfold store_get_events_by_execution_ids, store_get_artifacts_by_id.
      by rewrite !bind_ask.
  - unfold dict_keys at 1. by rewrite Hentries.
  - intros k. unfold dict_keys at 1. rewrite Hentries. apply Hkeys.
  - intros l1 e l2 Hexecs Hsel Hlast.
    unfold entry. rewrite dict_get_map_values.
    assert (Hget : dict_get (Execution.component_id e) execs_components
                   = Some (Execution.id e)).
    { unfold execs_components, dict_of. rewrite Hexecs, filter_app.
      rewrite filter_cons_True by exact Hsel. rewrite map_app. cbn [map].
      unfold pair_of at 2. apply dict_get_foldl_last.
      rewrite <- list_fmap_compose. intros Hin. apply Hlast.
      apply list_elem_of_fmap in Hin as (x & Hx & [_ Hin]%list_elem_of_filter).
      apply list_elem_of_fmap. by exists x. }
    rewrite Hget. done.
Qed.

Lemma get_outcomes_in_context_untraced_witness :
  exists d,
    result (get_outcomes_in_context (table_store two_runs) (PyStr "run-42") None)
      = Return d
    /\ dict_get "pkg.trainer" d = Some [Artifact.mk 101 "/artifacts/model"].
Proof.
  destruct (get_outcomes_in_context_untraced (table_store two_runs)
              (PyStr "run-42") None (Context.mk 42 "run" "run-42" []) eq_refl)
    as (d & Hd & _ & _ & Hlast).
  exists d. split; [exact Hd|].
  refine (Hlast [] (execution 20 "pkg.trainer" "cached") [] eq_refl _
                (not_elem_of_nil _)).
  vm_compute. left.
Defined.

(** ** The result loop of [get_outcomes] *)

Lemma get_outcomes_stages
    store contexts context_names output_components conditions :
  get_outcomes store contexts context_names output_components conditions =
  if truthy contexts && truthy context_names then
    raise (Exception "Cant define context id/names at the same time")
  else
    target_context_ids <-
      get_outcomes_surviving_context_ids store contexts context_names conditions ;;
    result <- for_each
                (fun c_id =>
                   v <- get_outcomes_in_context store (PyInt c_id) output_components ;;
                   ret (c_id, v))
                target_context_ids ;;
    ret (map (fun kv => (kv.1, extract_uris kv.2)) (dict_of result)).
Proof.
  unfold get_outcomes, get_outcomes_surviving_context_ids.
  destruct (truthy contexts && truthy context_names); [done|].
  by rewrite bind_assoc.
Qed.

Lemma get_outcomes_in_context_by_id_raises store c_id output_components :
  MetadataStore.get_context_by_type_and_name store "run" (PyInt c_id) = None ->
  result (get_outcomes_in_context store (PyInt c_id) output_components)
  = Raise AttributeError.
Proof.
  intros Hnone. unfold get_outcomes_in_context.
  rewrite (result_bind_Return _ _
             (if truthy output_components then default [] output_components
              else remove_dups (map Execution.component_id
                                    (MetadataStore.get_executions store))))
    by (by destruct (truthy output_components)).
  unfold store_get_context_by_type_and_name. by rewrite bind_ask, Hnone.
Qed.

(** X10.  [get_outcomes] hands each surviving context id to
    [get_outcomes_in_context] in the place of a context name.  On a
    backend that knows no run context under an id given as its name,
    the call returns the empty mapping when no target context survives
    and raises an [AttributeError] otherwise: it never returns an
    outcome. *)
Theorem get_outcomes_looks_ids_up_as_names
    store contexts context_names output_components conditions ids :
  (forall c_id,
     MetadataStore.get_context_by_type_and_name store "run" (PyInt c_id) = None) ->
  truthy contexts && truthy context_names = false ->
  result (get_outcomes_surviving_context_ids store contexts context_names
            conditions) = Return ids ->
  result (get_outcomes store contexts context_names output_components conditions)
  = match ids with
    | [] => Return []
    | _ :: _ => Raise AttributeError
    end.
Proof.
  intros Hnames Hsel Hids. rewrite get_outcomes_stages, Hsel.
  rewrite (result_bind_Return _ _ _ Hids).
  destruct ids as [|c_id ids]; [done|].
  apply result_bind_Raise. cbn [for_each].
  apply result_bind_Raise, result_bind_Raise.
  by apply get_outcomes_in_context_by_id_raises.
Qed.

Lemma get_outcomes_looks_ids_up_as_names_witness :
  result (get_outcomes (table_store two_runs) None (Some ["run-42"]) None None)
  = Raise AttributeError
  /\ result (get_outcomes (table_store two_runs) None (Some ["run-43"]) None None)
     = Return [].
Proof.
  split.
  - exact (get_outcomes_looks_ids_up_as_names (table_store two_runs)
             None (Some ["run-42"]) None None [42]
             (fun _ => eq_refl) eq_refl eq_refl).
  - exact (get_outcomes_looks_ids_up_as_names (table_store two_runs)
             None (Some ["run-43"]) None None []
             (fun _ => eq_refl) eq_refl eq_refl).
Defined.

(** X11.  With [contexts] given, [get_outcomes] resolves the names in
    order and raises an [AttributeError] at the first one that is not
    the name of a run context, after one query per name up to that one:
    no later name is looked up and no condition is evaluated. *)
Theorem get_outcomes_unknown_context_raises
    store l1 name l2 context_names output_components conditions :
  truthy context_names = false ->
  Forall (resolves store) l1 ->
  MetadataStore.get_context_by_type_and_name store "run" (PyStr name) = None ->
  get_outcomes store (Some (l1 ++ name :: l2)) context_names output_components
    conditions
  = (Raise AttributeError,
     map (fun c => Q_get_context_by_type_and_name "run" (PyStr c)) (l1 ++ [name])).
Proof.
  intros Hnames Hl1 Hname. unfold get_outcomes.
  rewrite truthy_app, Hnames. cbn [andb].
  unfold get_outcomes_target_context_ids. rewrite truthy_app.
  cbn [from_option]. unfold id.
  rewrite Forall_forall in Hl1.
  rewrite (for_each_first_raise _
             (fun c => Context.id
                (default (Context.mk 0 "" "" [])
                   (MetadataStore.get_context_by_type_and_name store "run"
                      (PyStr c))))
             (fun c => [Q_get_context_by_type_and_name "run" (PyStr c)])
             l1 name l2 AttributeError
             [Q_get_context_by_type_and_name "run" (PyStr name)]).
  - by rewrite concat_singletons, map_app.
  - intros c Hin. specialize (Hl1 c Hin). unfold resolves in Hl1.
    unfold store_get_context_by_type_and_name. rewrite bind_ask.
    by destruct (MetadataStore.get_context_by_type_and_name store "run" (PyStr c)).
  - unfold store_get_context_by_type_and_name. by rewrite bind_ask, Hname.
Qed.

Lemma get_outcomes_unknown_context_raises_witness :
  get_outcomes (table_store two_runs) (Some ["run-41"; "run-43"; "run-42"])
    None None (Some [mk_condition "pkg.pusher" "state" "complete"])
  = (Raise AttributeError,
     [Q_get_context_by_type_and_name "run" (PyStr "run-41");
      Q_get_context_by_type_and_name "run" (PyStr "run-43")]).
Proof.
  refine (get_outcomes_unknown_context_raises (table_store two_runs)
            ["run-41"] "run-43" ["run-42"] None None _ eq_refl _ eq_refl).
  repeat constructor. unfold resolves. vm_compute. discriminate.
Defined.

(** X12.  With [context_names] given, names that no context carries are
    dropped without an exception: when no context of the store has one
    of the names and no condition is given, [get_outcomes] returns the
    empty mapping after listing the contexts once. *)
Theorem get_outcomes_unknown_names_empty
    store contexts context_names output_components conditions :
  truthy contexts = false -> truthy context_names = true ->
  truthy conditions = false ->
  (forall c, c ∈ MetadataStore.get_contexts store ->
             Context.name c ∉ default [] context_names) ->
  get_outcomes store contexts context_names output_components conditions
  = (Return [], [Q_get_contexts]).
Proof.
  intros Hc Hn Hconds Hnone. unfold get_outcomes.
  rewrite Hc, Hn, Hconds. cbn [andb]. unfold get_outcomes_target_context_ids.
  rewrite Hc, Hn. unfold store_get_contexts.
  rewrite bind_assoc, bind_ask, bind_ret.
  assert (Hfilter : filter (fun c => Context.name c ∈ default [] context_names)
                           (MetadataStore.get_contexts store) = []).
  { induction (MetadataStore.get_contexts store) as [|c cs IH]; [done|].
    rewrite filter_cons_False by (apply Hnone; left).
    apply IH. intros x Hx. apply Hnone. by right. }
  by rewrite Hfilter.
Qed.

Lemma get_outcomes_unknown_names_empty_witness :
  get_outcomes (table_store two_runs) None (Some ["run-43"]) None None
  = (Return [], [Q_get_contexts]).
Proof.
  refine (get_outcomes_unknown_names_empty (table_store two_runs)
            None (Some ["run-43"]) None None eq_refl eq_refl eq_refl _).
  intros c Hc. cbn in Hc.
  repeat (apply elem_of_cons in Hc as [->|Hc];
          [by intros [=]%list_elem_of_singleton|]).
  by apply elem_of_nil in Hc.
Defined.

(** ** Conditions as a set *)

Lemma conditions_loop_as_filter store conditions :
  Forall (evaluates store) conditions ->
  exists (P : Z -> Prop) (Hdec : forall c, Decision (P c)),
    (forall c, P c <-> Forall (fun cond => satisfies store cond c) conditions)
    /\ forall targets,
         result (get_outcomes_conditions_loop store conditions targets)
         = Return (filter P targets).
Proof.
  induction 1 as [|cond rest Hcond _ (P & Hdec & HP & Hloop)].
  - exists (fun _ => True), _. split; [done|].
    intros targets. cbn [get_outcomes_conditions_loop]. unfold ret, result.
    cbn [fst]. f_equal. induction targets as [|c targets IH]; [done|].
    rewrite filter_cons_True by done. by f_equal.
  - destruct (list_contexts_by_condition_evaluates store cond Hcond)
      as (ctxs & Hres & Hsat).
    exists (fun c => P c /\ c ∈ map Context.id ctxs), _. split.
    + intros c. rewrite Forall_cons, HP, Hsat. tauto.
    + intros targets. rewrite conditions_loop_cons.
      rewrite (result_bind_Return _ _ _ Hres), Hloop.
      by rewrite list_filter_filter.
Qed.

(** X13.  When every condition is evaluated without an exception, the
    context ids that survive the conditions depend on the set of
    conditions only: neither their order nor a repetition changes the
    list returned. *)
Theorem conditions_order_is_irrelevant store conditions conditions' targets :
  Forall (evaluates store) conditions ->
  (forall cond, cond ∈ conditions <-> cond ∈ conditions') ->
  result (get_outcomes_conditions_loop store conditions targets)
  = result (get_outcomes_conditions_loop store conditions' targets).
Proof.
  intros Hall Hsame.
  assert (Hall' : Forall (evaluates store) conditions').
  { rewrite Forall_forall in *. intros cond Hin. by apply Hall, Hsame. }
  destruct (conditions_loop_as_filter store conditions Hall)
    as (P & Hdec & HP & ->).
  destruct (conditions_loop_as_filter store conditions' Hall')
    as (P' & Hdec' & HP' & ->).
  f_equal. apply list_filter_iff. intros c.
  rewrite HP, HP', !Forall_forall. split; intros Hsat cond Hin;
    by apply Hsat, Hsame.
Qed.

Lemma two_runs_evaluates_cached :
  evaluates (table_store two_runs) (mk_condition "pkg.trainer" "state" "cached").
Proof.
  split.
  - unfold registered. cbn. left.
  - intros e He _. cbn in He.
    apply elem_of_cons in He as [->|He];
      [|apply elem_of_cons in He as [->|He]; [|by apply elem_of_nil in He]];
      vm_compute; discriminate.
Qed.

Lemma conditions_order_is_irrelevant_witness :
  result (get_outcomes_conditions_loop (table_store two_runs)
            [mk_condition "pkg.trainer" "state" "complete";
             mk_condition "pkg.trainer" "state" "cached"] [1; 41; 42])
  = result (get_outcomes_conditions_loop (table_store two_runs)
              [mk_condition "pkg.trainer" "state" "cached";
               mk_condition "pkg.trainer" "state" "complete";
               mk_condition "pkg.trainer" "state" "cached"] [1; 41; 42]).
Proof.
  apply conditions_order_is_irrelevant.
  - repeat constructor;
      [apply two_runs_evaluates | apply two_runs_evaluates_cached].
  - intros cond. rewrite !elem_of_cons, !elem_of_nil. tauto.
Defined.

(** ** Status of a pipeline, and contexts that do not resolve *)


(** X15.  When the backend has no pipeline context of the given name,
    every method that starts from the pipeline raises an
    [AttributeError] after that one lookup: the executions, the
    component states, the pipeline status, the execution of a component
    and the artifacts of a component. *)
Theorem unknown_pipeline_raises store pipeline_name component_name :
  MetadataStore.get_context_by_type_and_name store "pipeline" (PyStr pipeline_name)
    = None ->
  let lookup := [Q_get_context_by_type_and_name "pipeline" (PyStr pipeline_name)] in
  get_pipeline_executions store pipeline_name = (Raise AttributeError, lookup)
  /\ get_components_status store pipeline_name = (Raise AttributeError, lookup)
  /\ get_pipeline_status store pipeline_name = (Raise AttributeError, lookup)
  /\ get_component_execution store pipeline_name component_name
      = (Raise AttributeError, lookup)
  /\ get_artifacts_by_component store pipeline_name component_name
      = (Raise AttributeError, lookup).
Proof.
  intros Hnone lookup.
  assert (Hexecs : get_pipeline_executions store pipeline_name
                   = (Raise AttributeError, lookup)).
  { unfold get_pipeline_executions, get_pipeline_context,
      store_get_context_by_type_and_name. by rewrite bind_ask, Hnone. }
  unfold get_artifacts_by_component, get_component_execution,
    get_pipeline_status, get_components_status.
  by rewrite Hexecs.
Qed.

Lemma unknown_pipeline_raises_witness :
  get_pipeline_status (table_store two_runs) "Q"
  = (Raise AttributeError, [Q_get_context_by_type_and_name "pipeline" (PyStr "Q")]).
Proof.
  exact (proj1 (proj2 (proj2 (unknown_pipeline_raises (table_store two_runs)
                                "Q" "trainer" eq_refl)))).
Defined.

(** X16.  When the backend has no run context of the given name, every
    method that starts from the run raises an [AttributeError] after
    that one lookup: the executions of the context, the lookup by
    component type, the cache test and the trace by component; the
    outcomes of the context do so too, after the components were
    listed when none are given. *)
Theorem unknown_run_raises store fuel context component_type output_components :
  MetadataStore.get_context_by_type_and_name store "run" (PyStr context) = None ->
  let lookup := [Q_get_context_by_type_and_name "run" (PyStr context)] in
  get_executions_by_context store context = (Raise AttributeError, lookup)
  /\ get_execution_by_component_type store context component_type
      = (Raise AttributeError, lookup)
  /\ is_component_cached store context component_type
      = (Raise AttributeError, lookup)
  /\ find_original_context_and_artifacts_from_context
       store fuel context component_type = (Raise AttributeError, lookup)
  /\ get_outcomes_in_context store (PyStr context) output_components
      = (Raise AttributeError,
         if truthy output_components then lookup else Q_get_executions :: lookup).
Proof.
  intros Hnone lookup. split_and!.
  - unfold get_executions_by_context, store_get_context_by_type_and_name.
    by rewrite bind_ask, Hnone.
  - by apply get_execution_by_component_type_no_context.
  - unfold is_component_cached, store_get_context_by_type_and_name.
    by rewrite bind_ask, Hnone.
  - unfold find_original_context_and_artifacts_from_context.
    by rewrite (get_execution_by_component_type_no_context _ _ _ Hnone).
  - unfold get_outcomes_in_context, store_get_context_by_type_and_name.
    destruct (truthy output_components).
    + by rewrite bind_ret, bind_ask, Hnone.
    + unfold list_registered_components, store_get_executions.
      by rewrite bind_assoc, bind_ask, bind_ret, bind_ask, Hnone.
Qed.

Lemma unknown_run_raises_witness :
  is_component_cached (table_store two_runs) "run-43" "trainer"
  = (Raise AttributeError, [Q_get_context_by_type_and_name "run" (PyStr "run-43")]).
Proof.
  exact (proj1 (proj2 (proj2 (unknown_run_raises (table_store two_runs)
                                1 "run-43" "trainer" None eq_refl)))).
Defined.

(** ** The state test of the tracer *)

(** X17.  The tracer never returns.  Given [None] it raises an
    [AttributeError] before any query; given an execution it fetches
    the events of the execution and raises [NameError] at the test of
    its state, cached or not, so that neither branch of the test is
    entered; and the trace by component ends the same way on the first
    execution that the lookup finds. *)
Theorem tracer_stops_at_state_test store fuel :
  (forall e,
     find_original_context_and_artifacts_from_exec store (S fuel) (Some e)
     = (Raise NameError, [Q_get_events_by_execution_ids [Execution.id e]]))
  /\ find_original_context_and_artifacts_from_exec store (S fuel) None
     = (Raise AttributeError, [])
  /\ (forall execution v,
        result (find_original_context_and_artifacts_from_exec store fuel execution)
        <> Return v)
  /\ (forall context component_type c l1 e l2,
        MetadataStore.get_context_by_type_and_name store "run" (PyStr context)
          = Some c ->
        MetadataStore.get_executions_by_context store (Context.id c)
          = l1 ++ e :: l2 ->
        Forall (passed_over component_type) l1 ->
        instance_name e = Some component_type ->
        find_original_context_and_artifacts_from_context
          store (S fuel) context component_type
        = (Raise NameError,
           [Q_get_context_by_type_and_name "run" (PyStr context);
            Q_get_executions_by_context (Context.id c);
            Q_get_events_by_execution_ids [Execution.id e]])).
Proof.
  assert (Hexec : forall n e,
            find_original_context_and_artifacts_from_exec store (S n) (Some e)
            = (Raise NameError, [Q_get_events_by_execution_ids [Execution.id e]])).
  { intros n e. cbn [find_original_context_and_artifacts_from_exec attr].
    rewrite bind_ret. unfold store_get_events_by_execution_ids.
    by rewrite bind_ask, bind_ret. }
  split_and!.
  - apply Hexec.
  - done.
  - intros execution v. destruct fuel as [|n]; [done|].
    destruct execution as [e|]; [by rewrite Hexec | done].
  - intros context component_type c l1 e l2 Hc Hexecs Hl1 He.
    unfold find_original_context_and_artifacts_from_context.
    rewrite (get_execution_by_component_type_found _ _ _ _ Hc), Hexecs.
    rewrite (loop_first_match _ _ _ _ Hl1 He).
    unfold ret, result, queries. cbn [fst snd]. unfold bind at 1.
    by rewrite Hexec.
Qed.

Lemma tracer_stops_at_state_test_witness :
  find_original_context_and_artifacts_from_context
    (table_store two_runs) 1 "run-41" "trainer"
  = (Raise NameError,
     [Q_get_context_by_type_and_name "run" (PyStr "run-41");
      Q_get_executions_by_context 41;
      Q_get_events_by_execution_ids [10]]).
Proof.
  refine (proj2 (proj2 (proj2 (tracer_stops_at_state_test (table_store two_runs) 0)))
            "run-41" "trainer" (Context.mk 41 "run" "run-41" [])
            [] (execution 10 "pkg.trainer" "complete") []
            eq_refl eq_refl (Forall_nil_2 _) eq_refl).
Defined.

(** ** Contexts by run id *)

(** X18.  [get_context_by_run_id] returns the id of the first context,
    in backend order, whose [run_id] property is the given one, and
    [None], without raising, when no context has it; it lists the
    contexts once. *)
Theorem get_context_by_run_id_first_match store run_id :
  let run_id_of c := string_value (Context.properties c) "run_id" in
  (forall l1 c l2,
     MetadataStore.get_contexts store = l1 ++ c :: l2 ->
     Forall (fun x => run_id_of x <> run_id) l1 -> run_id_of c = run_id ->
     get_context_by_run_id store run_id
     = (Return (Some (Context.id c)), [Q_get_contexts]))
  /\ (Forall (fun x => run_id_of x <> run_id) (MetadataStore.get_contexts store) ->
      get_context_by_run_id store run_id = (Return None, [Q_get_contexts])).
Proof.
  intros run_id_of. unfold get_context_by_run_id, store_get_contexts.
  rewrite bind_ask. unfold ret, result, queries. cbn [fst snd]. split.
  - intros l1 c l2 -> Hl1 Hc. f_equal. f_equal.
    induction Hl1 as [|x l1 Hx _ IH]; cbn [app get_context_by_run_id_loop].
    + fold (run_id_of c). by rewrite Hc, String.eqb_refl.
    + fold (run_id_of x). by destruct (String.eqb_spec (run_id_of x) run_id).
  - intros Hnone. f_equal. f_equal.
    induction Hnone as [|x l Hx _ IH]; cbn [get_context_by_run_id_loop]; [done|].
    fold (run_id_of x). by destruct (String.eqb_spec (run_id_of x) run_id).
Qed.

Lemma get_context_by_run_id_first_match_witness :
  get_context_by_run_id (table_store trainers_pipeline) "r7"
  = (Return (Some 7), [Q_get_contexts])
  /\ get_context_by_run_id (table_store trainers_pipeline) "r8"
     = (Return None, [Q_get_contexts]).
Proof.
  destruct (get_context_by_run_id_first_match
              (table_store trainers_pipeline) "r7") as [Hfirst _].
  destruct (get_context_by_run_id_first_match
              (table_store trainers_pipeline) "r8") as [_ Hnone].
  split.
  - refine (Hfirst [Context.mk 1 "pipeline" "P" []]
              (Context.mk 7 "run" "run-7" [("run_id", "r7")]) [] eq_refl _ eq_refl).
    repeat constructor. discriminate.
  - apply Hnone. repeat constructor; discriminate.
Defined.

(** X19.  [get_run_context_by_comp_execution_id] never raises: after its
    one query it returns the first context listed for the execution
    that has a [run_id] property, which need not be the first context
    listed, and [None] when no listed context has one, also when the
    execution has no context at all. *)
Theorem get_run_context_by_comp_execution_id_first_run store comp_exec_id :
  let has_run_id c := "run_id" ∈ (Context.properties c).*1 in
  (forall l1 c l2,
     MetadataStore.get_contexts_by_execution store comp_exec_id = l1 ++ c :: l2 ->
     Forall (fun x => ~ has_run_id x) l1 -> has_run_id c ->
     get_run_context_by_comp_execution_id store comp_exec_id
     = (Return (Some c), [Q_get_contexts_by_execution comp_exec_id]))
  /\ (Forall (fun x => ~ has_run_id x)
        (MetadataStore.get_contexts_by_execution store comp_exec_id) ->
      get_run_context_by_comp_execution_id store comp_exec_id
      = (Return None, [Q_get_contexts_by_execution comp_exec_id])).
Proof.
  intros has_run_id.
  unfold get_run_context_by_comp_execution_id, store_get_contexts_by_execution.
  rewrite bind_ask. unfold ret, result, queries. cbn [fst snd]. split.
  - intros l1 c l2 -> Hl1 Hc. f_equal. f_equal.
    induction Hl1 as [|x l1 Hx _ IH];
      cbn [app get_run_context_by_comp_execution_id_loop].
    + by rewrite bool_decide_eq_true_2.
    + by rewrite bool_decide_eq_false_2.
  - intros Hnone. f_equal. f_equal.
    induction Hnone as [|x l Hx _ IH];
      cbn [get_run_context_by_comp_execution_id_loop]; [done|].
    by rewrite bool_decide_eq_false_2.
Qed.

Lemma get_run_context_by_comp_execution_id_first_run_witness :
  get_run_context_by_comp_execution_id (table_store trainers_pipeline) 11
  = (Return (Some (Context.mk 7 "run" "run-7" [("run_id", "r7")])),
     [Q_get_contexts_by_execution 11])
  /\ get_run_context_by_comp_execution_id (table_store trainers_pipeline) 99
     = (Return None, [Q_get_contexts_by_execution 99]).
Proof.
  destruct (get_run_context_by_comp_execution_id_first_run
              (table_store trainers_pipeline) 11) as [Hfirst _].
  destruct (get_run_context_by_comp_execution_id_first_run
              (table_store trainers_pipeline) 99) as [_ Hnone].
  split.
  - refine (Hfirst [Context.mk 1 "pipeline" "P" []]
              (Context.mk 7 "run" "run-7" [("run_id", "r7")]) [] eq_refl _ _).
    + repeat constructor. apply not_elem_of_nil.
    + cbn. left.
  - apply Hnone. constructor.
Defined.
